(** * A shallow embedding of the venue crawler (AI_web_crawler)

    The development follows the three source files:
    - [models/site.py]          : the [Site] schema;
    - [utils/data_utils.py]     : [is_duplicate], [is_complete_site],
                                  [save_keys_to_csv];
    - [utils/scraper_utils.py]  : [check_no_results],
                                  [fetch_and_process_page].

    Python objects decoded from JSON are an inductive type; the crawler, the
    set of seen names, standard output and the file system are threaded
    through a state-and-exception monad. *)

From Stdlib Require Import QArith Qcanon Ascii.
From stdpp Require Import gmap strings list fin_maps pretty.

#[local] Close Scope Qc_scope.
#[local] Close Scope Q_scope.

Set Warnings "-register-all,-clear-no-such-hyp".

(** ** Python values *)

(** The objects [json.loads] builds from a standard JSON text.  An [int] is
    unbounded; a [float] is represented by its exact (rational) value, which is
    all that truth, equality and hashing look at (the literals [NaN] and
    [Infinity], which are not JSON, are left out).  Dictionaries decoded from
    JSON have string keys; the order of their keys is not recorded. *)
Inductive pyval :=
| PNone
| PBool (b : bool)
| PInt (z : Z)
| PFloat (q : Qc)
| PStr (s : string)
| PList (l : list pyval)
| PDict (d : gmap string pyval).

Abbreviation dict := (gmap string pyval).

(** Truth value of an object, as tested by [if not x]. *)
Definition truthy (v : pyval) : bool :=
  match v with
  | PNone => false
  | PBool b => b
  | PInt z => negb (Z.eqb z 0)
  | PFloat q => negb (bool_decide (q = 0%Qc))
  | PStr s => match s with EmptyString => false | String _ _ => true end
  | PList l => match l with [] => false | _ :: _ => true end
  | PDict d => negb (bool_decide (size d = 0))
  end.

(** Truth value of an [Optional[str]]. *)
Definition truthy_opt (o : option string) : bool :=
  match o with
  | None => false
  | Some s => truthy (PStr s)
  end.

(** Members of a Python [set] are compared with [==] after hashing: [None],
    numbers (where [True == 1 == 1.0]) and strings are hashable, lists and
    dictionaries are not.  [hkey] is the class of an object under [==]. *)
Inductive hkey :=
| HNone
| HNum (q : Qc)
| HStr (s : string).

#[global] Instance hkey_eq_dec : EqDecision hkey.
Proof. solve_decision. Defined.

#[global] Instance hkey_countable : Countable hkey.
Proof.
  refine (inj_countable'
            (λ k, match k with
                  | HNone => inl ()
                  | HNum q => inr (inl q)
                  | HStr s => inr (inr s)
                  end)
            (λ x, match x with
                  | inl _ => HNone
                  | inr (inl q) => HNum q
                  | inr (inr s) => HStr s
                  end) _).
  by intros [].
Defined.

Definition py_hash (v : pyval) : option hkey :=
  match v with
  | PNone => Some HNone
  | PBool b => Some (HNum (Q2Qc (inject_Z (if b then 1%Z else 0%Z))))
  | PInt z => Some (HNum (Q2Qc (inject_Z z)))
  | PFloat q => Some (HNum q)
  | PStr s => Some (HStr s)
  | PList _ => None
  | PDict _ => None
  end.

(** [needle in hay] on strings. *)
Fixpoint str_contains (needle hay : string) : bool :=
  String.prefix needle hay ||
  match hay with
  | EmptyString => false
  | String _ hay' => str_contains needle hay'
  end.

(** A path with a null character in it, which [open] refuses at once. *)
Fixpoint has_null (s : string) : bool :=
  match s with
  | EmptyString => false
  | String a s' => (nat_of_ascii a =? 0) || has_null s'
  end.

(** The one-character strings a [for] loop over a [str] yields. *)
Fixpoint str_chars (s : string) : list string :=
  match s with
  | EmptyString => []
  | String a s' => String a EmptyString :: str_chars s'
  end.

(** ** Exceptions and diagnostics *)

Inductive exn :=
| KeyError (key : string)
| AttributeError (attr : string)
| TypeError_unhashable
| TypeError_not_iterable
| JSONDecodeError
| ValueError_extra_fields (wrong_fields : gset string)
| ValueError_null_byte
| OSError (filename : string).

(** One constructor per [print] statement of the sources, with the values
    interpolated in the message. *)
Inductive log_line :=
| LogLoading (page_number : Z)
| LogProbeError (error_message : option string)
| LogFetchError (page_number : Z) (error_message : option string)
| LogNoVenues (page_number : Z)
| LogExtractedData (extracted_data : pyval)
| LogProcessing (info : pyval)
| LogDuplicate (name : pyval)
| LogNoComplete (page_number : Z)
| LogExtracted (count : nat) (page_number : Z)
| LogNoData
| LogSaved (count : nat) (filename : string).

(** ** models/site.py *)

Inductive field_type := TStr | TFloat | TInt.

Definition Site_model_fields : list (string * field_type) :=
  [ ("name", TStr); ("location", TStr); ("price", TStr); ("capacity", TStr);
    ("rating", TFloat); ("reviews", TInt); ("description", TStr) ].

(** ** The crawl4ai interface *)

Inductive CacheMode := ENABLED | DISABLED | READ_ONLY | WRITE_ONLY | BYPASS.

Record CrawlResult := {
  success : bool;
  cleaned_html : option string;
  extracted_content : option string;
  error_message : option string
}.

Record CrawlerRunConfig {Strategy : Type} := {
  cache_mode : CacheMode;
  extraction_strategy : option Strategy;
  css_selector : option string;
  session_id : string
}.
Arguments CrawlerRunConfig : clear implicits.

(** A CSV file is kept as the list of rows handed to the underlying writer,
    each cell being the Python value given for it: the text the writer makes
    of a cell (its [str], quoted where needed) is not modelled, so two files
    with different cells may well read the same on disk. *)
Abbreviation csv_rows := (list (list pyval)).

(** ** Program state *)

(** Everything the two utility modules read or change: the crawler (with the
    web behind it), the caller's [seen_names] set, standard output, the record
    of the [arun] calls made so far, and the files. *)
Record world {Crawler Strategy : Type} := {
  crawler : Crawler;
  seen_names : gset hkey;
  stdout : list log_line;
  fetches : list (string * CrawlerRunConfig Strategy);
  files : gmap string csv_rows
}.
Arguments world : clear implicits.

Section Updates.
Context {Crawler Strategy : Type}.
Implicit Type w : world Crawler Strategy.

Definition with_stdout (lines : list log_line) w : world Crawler Strategy :=
  {| crawler := crawler w; seen_names := seen_names w; stdout := lines;
     fetches := fetches w; files := files w |}.

Definition with_seen_names (names : gset hkey) w : world Crawler Strategy :=
  {| crawler := crawler w; seen_names := names; stdout := stdout w;
     fetches := fetches w; files := files w |}.

Definition with_files (fs : gmap string csv_rows) w : world Crawler Strategy :=
  {| crawler := crawler w; seen_names := seen_names w; stdout := stdout w;
     fetches := fetches w; files := fs |}.

(** The crawler has answered one more request. *)
Definition with_fetch (crawler' : Crawler)
    (request : string * CrawlerRunConfig Strategy) w
  : world Crawler Strategy :=
  {| crawler := crawler'; seen_names := seen_names w; stdout := stdout w;
     fetches := fetches w ++ [request]; files := files w |}.
End Updates.

Inductive outcome (A : Type) :=
| Returned (a : A)
| Raised (e : exn).
Arguments Returned {A} a.
Arguments Raised {A} e.

Section Model.
Context {Crawler Strategy : Type}.

(** [crawler.arun(url, config)]: the crawler answers with a result and moves
    to a new state. *)
Variable arun :
  Crawler → string → CrawlerRunConfig Strategy → CrawlResult * Crawler.

(** [json.loads]; [None] stands for [JSONDecodeError]. *)
Variable json_loads : string → option pyval.

(** What the operating system answers when asked to create or truncate the
    file at a path: [false] when it refuses (a directory is there, a parent
    directory is missing, the permission is). *)
Variable openable : string → bool.

#[local] Abbreviation world := (world Crawler Strategy).

Definition M (A : Type) : Type := world → outcome A * world.

#[export] Instance M_ret : MRet M := λ A a w, (Returned a, w).

#[export] Instance M_bind : MBind M := λ A B f m w,
  match m w with
  | (Returned a, w') => f a w'
  | (Raised e, w') => (Raised e, w')
  end.

Definition raise {A : Type} (e : exn) : M A := λ w, (Raised e, w).

Definition lift {A : Type} (o : outcome A) : M A := λ w, (o, w).

Definition print (line : log_line) : M unit := λ w,
  (Returned (), with_stdout (stdout w ++ [line]) w).

Definition crawler_arun (url : string) (config : CrawlerRunConfig Strategy)
  : M CrawlResult := λ w,
  let '(result, crawler') := arun (crawler w) url config in
  (Returned result, with_fetch crawler' (url, config) w).

Definition get_seen_names : M (gset hkey) := λ w, (Returned (seen_names w), w).

(** [seen_names.add(v)] *)
Definition seen_names_add (v : pyval) : M unit := λ w,
  match py_hash v with
  | Some k => (Returned (), with_seen_names ({[ k ]} ∪ seen_names w) w)
  | None => (Raised TypeError_unhashable, w)
  end.

(** The exception [open(filename, mode='w')] raises, if any: [ValueError] for
    a path with a null character, [OSError] ([FileNotFoundError] and the like)
    for the empty path and for a path the operating system refuses. *)
Definition open_error (filename : string) : option exn :=
  if has_null filename then Some ValueError_null_byte
  else
    match filename with
    | EmptyString => Some (OSError filename)
    | String _ _ =>
        if openable filename then None else Some (OSError filename)
    end.

(** [open(filename, mode='w')] creates or truncates the file, or raises and
    leaves everything as it is.  (Errors of the device once the file is open,
    a full disk say, are not modelled.) *)
Definition file_open_w (filename : string) : M unit := λ w,
  match open_error filename with
  | Some e => (Raised e, w)
  | None => (Returned (), with_files (<[filename := []]> (files w)) w)
  end.

Definition file_write_row (filename : string) (row : list pyval) : M unit :=
  λ w,
  (Returned (),
   with_files
     (<[filename := default [] (files w !! filename) ++ [row]]> (files w)) w).

(** *** utils/data_utils.py *)

(** [site_name in seen_values] *)
Definition is_duplicate (site_name : pyval) (seen_values : gset hkey)
  : outcome bool :=
  match py_hash site_name with
  | Some k => Returned (bool_decide (k ∈ seen_values))
  | None => Raised TypeError_unhashable
  end.

(** [all(key in site for key in required_keys)] *)
Definition is_complete_site (site : dict) (required_keys : list string)
  : bool :=
  forallb (λ key, bool_decide (key ∈ dom site)) required_keys.

(** [Site.model_fields.keys()] *)
Definition fieldnames : list string := Site_model_fields.*1.

(** [rowdict.get(key, '') for key in fieldnames] *)
Definition row_values (rowdict : dict) : list pyval :=
  (λ key, default (PStr EmptyString) (rowdict !! key)) <$> fieldnames.

(** [csv.DictWriter._dict_to_list] with the default [extrasaction='raise']
    and [restval=''] *)
Definition dict_to_list (rowdict : dict) : outcome (list pyval) :=
  let wrong_fields := dom rowdict ∖ list_to_set fieldnames in
  if bool_decide (wrong_fields = ∅)
  then Returned (row_values rowdict)
  else Raised (ValueError_extra_fields wrong_fields).

(** [DictWriter.writerows]: the rows are converted and written one at a
    time. *)
Fixpoint writerows (filename : string) (rowdicts : list dict) : M unit :=
  match rowdicts with
  | [] => mret ()
  | rowdict :: rest =>
      row ← lift (dict_to_list rowdict);
      file_write_row filename row;;
      writerows filename rest
  end.

Definition writeheader (filename : string) : M unit :=
  file_write_row filename (PStr <$> fieldnames).

Definition save_keys_to_csv (valid_infos : list dict) (filename : string)
  : M unit :=
  match valid_infos with
  | [] => print LogNoData
  | _ :: _ =>
      file_open_w filename;;
      writeheader filename;;
      writerows filename valid_infos;;
      print (LogSaved (length valid_infos) filename)
  end.

(** *** utils/scraper_utils.py *)

(** [f"{base_url}?page={page_number}"] *)
Definition page_url (base_url : string) (page_number : Z) : string :=
  base_url +:+ "?page=" +:+ pretty page_number.

(** [CrawlerRunConfig(cache_mode=CacheMode.BYPASS, session_id=session_id)] *)
Definition probe_config (session_id : string) : CrawlerRunConfig Strategy :=
  {| cache_mode := BYPASS; extraction_strategy := None;
     css_selector := None; session_id := session_id |}.

(** The configuration of the second request, with the extraction strategy
    and the selector. *)
Definition extraction_config (llm_strategy : Strategy)
    (css_selector session_id : string) : CrawlerRunConfig Strategy :=
  {| cache_mode := BYPASS; extraction_strategy := Some llm_strategy;
     css_selector := Some css_selector; session_id := session_id |}.

Definition check_no_results (url session_id : string) : M bool :=
  result ← crawler_arun url (probe_config session_id);
  if success result then
    match cleaned_html result with
    | None => raise TypeError_not_iterable
    | Some html =>
        if str_contains "No Results Found" html then mret true
        else
          print (LogProbeError (error_message result));;
          mret false
    end
  else mret false.

(** What [for info in extracted_data] iterates over: the items of a list, the
    keys of a dictionary, the characters of a string; a number, a boolean or
    [None] cannot be iterated.  Python goes through the keys of a dictionary
    in insertion order, which is not recorded here: the keys come in the order
    of [map_to_list], and the difference shows in one place only, the trace
    line printed for the first key before [AttributeError] is raised. *)
Definition py_iter (v : pyval) : outcome (list pyval) :=
  match v with
  | PList l => Returned l
  | PDict d => Returned (PStr <$> (map_to_list d).*1)
  | PStr s => Returned (PStr <$> str_chars s)
  | PNone | PBool _ | PInt _ | PFloat _ => Raised TypeError_not_iterable
  end.

(** [info.pop("error", None)] when [info.get("error") is False] *)
Definition strip_error (info : dict) : dict :=
  match info !! "error" with
  | Some (PBool false) => delete "error" info
  | _ => info
  end.

(** The body of the [for info in extracted_data] loop; [complete_info] is
    the list built so far. *)
Definition process_info (required_keys : list string)
    (complete_info : list dict) (info : pyval) : M (list dict) :=
  print (LogProcessing info);;
  match info with
  | PDict d =>
      let info := strip_error d in
      if negb (is_complete_site info required_keys) then mret complete_info
      else
        match info !! "name" with
        | None => raise (KeyError "name")
        | Some name =>
            seen ← get_seen_names;
            duplicate ← lift (is_duplicate name seen);
            if (duplicate : bool) then
              print (LogDuplicate name);;
              mret complete_info
            else
              seen_names_add name;;
              mret (complete_info ++ [info])
        end
  | _ => raise (AttributeError "get")
  end.

Fixpoint process_all (required_keys : list string)
    (complete_info : list dict) (extracted_data : list pyval)
  : M (list dict) :=
  match extracted_data with
  | [] => mret complete_info
  | info :: rest =>
      complete_info' ← process_info required_keys complete_info info;
      process_all required_keys complete_info' rest
  end.

Definition fetch_and_process_page (page_number : Z)
    (base_url css_selector : string) (llm_strategy : Strategy)
    (session_id : string) (required_keys : list string)
  : M (list dict * bool) :=
  let url := page_url base_url page_number in
  print (LogLoading page_number);;
  no_results ← check_no_results url session_id;
  if (no_results : bool) then mret ([], true)
  else
    result ← crawler_arun url
               (extraction_config llm_strategy css_selector session_id);
    if negb (success result && truthy_opt (extracted_content result)) then
      print (LogFetchError page_number (error_message result));;
      mret ([], false)
    else
      match json_loads (default EmptyString (extracted_content result)) with
      | None => raise JSONDecodeError
      | Some extracted_data =>
          if negb (truthy extracted_data) then
            print (LogNoVenues page_number);;
            mret ([], false)
          else
            print (LogExtractedData extracted_data);;
            items ← lift (py_iter extracted_data);
            complete_info ← process_all required_keys [] items;
            match complete_info with
            | [] =>
                print (LogNoComplete page_number);;
                mret ([], false)
            | _ :: _ =>
                print (LogExtracted (length complete_info) page_number);;
                mret (complete_info, false)
            end
      end.

(** *** Successive calls on one [seen_names] set *)

(** The arguments of one call of [fetch_and_process_page] (the crawler and
    [seen_names] are in the state). *)
Record page_call := {
  call_page_number : Z;
  call_base_url : string;
  call_css_selector : string;
  call_llm_strategy : Strategy;
  call_session_id : string;
  call_required_keys : list string
}.

Definition run_call (c : page_call) : M (list dict * bool) :=
  fetch_and_process_page (call_page_number c) (call_base_url c)
    (call_css_selector c) (call_llm_strategy c) (call_session_id c)
    (call_required_keys c).

(** The records a call hands to its caller; none when it raises. *)
Definition returned_records (o : outcome (list dict * bool)) : list dict :=
  match o with
  | Returned (records, _) => records
  | Raised _ => []
  end.

(** Any sequence of calls, each starting in the state the previous one left;
    the records returned are collected in order. *)
Fixpoint run_calls (calls : list page_call) (w : world)
  : list dict * world :=
  match calls with
  | [] => ([], w)
  | c :: rest =>
      let '(o, w1) := run_call c w in
      let '(records, w2) := run_calls rest w1 in
      (returned_records o ++ records, w2)
  end.

End Model.

(** The name of a record as [seen_names] sees it; [None] when the record has
    no [name] key or an unhashable one. *)
Definition name_key (record : dict) : option hkey :=
  record !! "name" ≫= py_hash.

Definition names_of (records : list dict) : gset hkey :=
  list_to_set (omap name_key records).

(** A record the CSV writer accepts: no key outside the schema. *)
Definition within_schema (record : dict) : Prop :=
  dom record ⊆ list_to_set fieldnames.

#[global] Instance within_schema_dec (record : dict) :
  Decision (within_schema record).
Proof. unfold within_schema. apply _. Defined.

(** The header row of the CSV file. *)
Definition header_row : list pyval :=
  [ PStr "name"; PStr "location"; PStr "price"; PStr "capacity";
    PStr "rating"; PStr "reviews"; PStr "description" ].

(** ** A scripted web site and a JSON decoder, to run the model *)

(** A site answers the URLs it knows; the extraction payload is delivered only
    when the request carries an extraction strategy. *)
Record fake_page := {
  page_html : string;
  page_payload : string
}.

Fixpoint site_lookup (site : list (string * fake_page)) (url : string)
  : option fake_page :=
  match site with
  | [] => None
  | (u, p) :: rest => if String.eqb u url then Some p else site_lookup rest url
  end.

Definition site_arun (site : list (string * fake_page)) (url : string)
    (config : CrawlerRunConfig unit) : CrawlResult * list (string * fake_page) :=
  match site_lookup site url with
  | Some p =>
      ({| success := true;
          cleaned_html := Some (page_html p);
          extracted_content :=
            match extraction_strategy config with
            | Some _ => Some (page_payload p)
            | None => None
            end;
          error_message := None |}, site)
  | None =>
      ({| success := false; cleaned_html := None; extracted_content := None;
          error_message := Some "net::ERR_NAME_NOT_RESOLVED" |}, site)
  end.

(** A decoder for a fragment of JSON, enough to run the model on concrete
    payloads: [null], [true], [false], integers, strings (with the escapes of
    the quote, the backslash and the slash), arrays and objects.  Texts outside
    the fragment are rejected. *)

Definition is_space (a : ascii) : bool :=
  (nat_of_ascii a =? 32) || (nat_of_ascii a =? 10) ||
  (nat_of_ascii a =? 13) || (nat_of_ascii a =? 9).

Definition is_digit (a : ascii) : bool :=
  (48 <=? nat_of_ascii a) && (nat_of_ascii a <=? 57).

Fixpoint skip_space (s : string) : string :=
  match s with
  | String a rest => if is_space a then skip_space rest else s
  | EmptyString => s
  end.

Fixpoint strip_prefix (p s : string) : option string :=
  match p, s with
  | EmptyString, _ => Some s
  | String a p', String b s' => if Ascii.eqb a b then strip_prefix p' s' else None
  | String _ _, EmptyString => None
  end.

(** The digits at the head of [s], most significant first. *)
Fixpoint read_digits (s : string) : list nat * string :=
  match s with
  | String a rest =>
      if is_digit a
      then let '(ds, rest') := read_digits rest in
           (nat_of_ascii a - 48 :: ds, rest')
      else ([], s)
  | EmptyString => ([], s)
  end.

Definition digits_value (ds : list nat) : Z :=
  foldl (λ acc d, 10 * acc + Z.of_nat d)%Z 0%Z ds.

(** A JSON integer: no empty digit string, no leading zero. *)
Definition read_int (s : string) : option (Z * string) :=
  let '(ds, rest) := read_digits s in
  match ds with
  | [] => None
  | 0 :: _ :: _ => None
  | _ => Some (digits_value ds, rest)
  end.

(** The characters of a string literal, after its opening quote. *)
Fixpoint read_string (s : string) : option (string * string) :=
  match s with
  | EmptyString => None
  | String a rest =>
      if nat_of_ascii a =? 34 then Some (EmptyString, rest)
      else if nat_of_ascii a =? 92 then
        match rest with
        | String b rest' =>
            if (nat_of_ascii b =? 34) || (nat_of_ascii b =? 92)
               || (nat_of_ascii b =? 47)
            then '(body, tail) ← read_string rest'; Some (String b body, tail)
            else None
        | EmptyString => None
        end
      else if nat_of_ascii a <? 32 then None
      else '(body, tail) ← read_string rest; Some (String a body, tail)
  end.

Fixpoint decode_value (fuel : nat) (s : string) : option (pyval * string) :=
  match fuel with
  | 0 => None
  | S fuel =>
      match skip_space s with
      | EmptyString => None
      | String a rest as s' =>
          if nat_of_ascii a =? 91 then
            match skip_space rest with
            | String b rest' =>
                if nat_of_ascii b =? 93 then Some (PList [], rest')
                else '(items, tail) ← decode_items fuel rest;
                     Some (PList items, tail)
            | EmptyString => None
            end
          else if nat_of_ascii a =? 123 then
            match skip_space rest with
            | String b rest' =>
                if nat_of_ascii b =? 125 then Some (PDict ∅, rest')
                else '(members, tail) ← decode_members fuel rest;
                     Some (PDict (foldl (λ d kv, <[kv.1 := kv.2]> d) ∅ members),
                           tail)
            | EmptyString => None
            end
          else if nat_of_ascii a =? 34 then
            '(body, tail) ← read_string rest; Some (PStr body, tail)
          else if nat_of_ascii a =? 45 then
            '(z, tail) ← read_int rest; Some (PInt (- z), tail)
          else if is_digit a then
            '(z, tail) ← read_int s'; Some (PInt z, tail)
          else
            match strip_prefix "null" s', strip_prefix "true" s',
                  strip_prefix "false" s' with
            | Some tail, _, _ => Some (PNone, tail)
            | _, Some tail, _ => Some (PBool true, tail)
            | _, _, Some tail => Some (PBool false, tail)
            | None, None, None => None
            end
      end
  end
with decode_items (fuel : nat) (s : string) : option (list pyval * string) :=
  match fuel with
  | 0 => None
  | S fuel =>
      '(v, s1) ← decode_value fuel s;
      match skip_space s1 with
      | String a s2 =>
          if nat_of_ascii a =? 44 then
            '(vs, tail) ← decode_items fuel s2; Some (v :: vs, tail)
          else if nat_of_ascii a =? 93 then Some ([v], s2)
          else None
      | EmptyString => None
      end
  end
with decode_members (fuel : nat) (s : string)
  : option (list (string * pyval) * string) :=
  match fuel with
  | 0 => None
  | S fuel =>
      match skip_space s with
      | String q s0 =>
          if nat_of_ascii q =? 34 then
            '(key, s1) ← read_string s0;
            match skip_space s1 with
            | String c s2 =>
                if nat_of_ascii c =? 58 then
                  '(v, s3) ← decode_value fuel s2;
                  match skip_space s3 with
                  | String a s4 =>
                      if nat_of_ascii a =? 44 then
                        '(kvs, tail) ← decode_members fuel s4;
                        Some ((key, v) :: kvs, tail)
                      else if nat_of_ascii a =? 125 then Some ([(key, v)], s4)
                      else None
                  | EmptyString => None
                  end
                else None
            | EmptyString => None
            end
          else None
      | EmptyString => None
      end
  end.

Definition json_decode (text : string) : option pyval :=
  '(v, rest) ← decode_value (S (String.length text)) text;
  match skip_space rest with
  | EmptyString => Some v
  | String _ _ => None
  end.

(** Writing the payloads: a quoted string, an object and an array. *)
Definition json_quote (s : string) : string :=
  String (ascii_of_nat 34) s +:+ String (ascii_of_nat 34) EmptyString.

Definition json_object (members : list (string * string)) : string :=
  "{" +:+ String.concat ", " ((λ kv, json_quote kv.1 +:+ ": " +:+ kv.2) <$> members)
      +:+ "}".

Definition json_array (items : list string) : string :=
  "[" +:+ String.concat ", " items +:+ "]".

(** ** A small listing site *)

(** A dictionary with the seven fields of the schema. *)
Definition venue (name : pyval) : dict :=
  <["name" := name]> (<["location" := PStr "Leeds"]>
  (<["price" := PStr "100"]> (<["capacity" := PStr "50"]>
  (<["rating" := PInt 4]> (<["reviews" := PInt 0]>
  {["description" := PStr "A hall."]}))))).

(** The JSON text of [venue (PStr name)], with further members appended. *)
Definition venue_text (name : string) (more : list (string * string))
  : string :=
  json_object
    ([ ("name", json_quote name); ("location", json_quote "Leeds");
       ("price", json_quote "100"); ("capacity", json_quote "50");
       ("rating", "4"); ("reviews", "0");
       ("description", json_quote "A hall.") ] ++ more).

Definition listing_url : string := "https://venues.example/list".

Definition listing_page (page_number : Z) (html payload : string)
  : string * fake_page :=
  (listing_url +:+ "?page=" +:+ pretty page_number,
   {| page_html := html; page_payload := payload |}).

(** The state at the start of a run on a given site. *)
Definition start (site : list (string * fake_page))
  : world (list (string * fake_page)) unit :=
  {| crawler := site; seen_names := ∅; stdout := []; fetches := [];
     files := ∅ |}.

(** A call for one page of the listing, with the requirements given. *)
Definition listing_call (page_number : Z) (required_keys : list string)
  : page_call (Strategy := unit) :=
  {| call_page_number := page_number; call_base_url := listing_url;
     call_css_selector := ".venue"; call_llm_strategy := ();
     call_session_id := "venue_crawl_session";
     call_required_keys := required_keys |}.

(** Three pages: two venues; a repeat of the first and a new one, which carries
    the benign error flag; the end of the listing. *)
Definition three_pages : list (string * fake_page) :=
  [ listing_page 1 "<h1>Venues</h1>"
      (json_array [venue_text "Hall" []; venue_text "Barn" []]);
    listing_page 2 "<h1>Venues</h1>"
      (json_array [venue_text "Hall" []; venue_text "Loft" [("error", "false")]]);
    listing_page 3 "<h1>No Results Found</h1>" (json_array []) ].

(** One page whose only venue has the empty string for a name. *)
Definition nameless_page : list (string * fake_page) :=
  [ listing_page 1 "<h1>Venues</h1>" (json_array [venue_text EmptyString []]) ].

(** One page with a venue that has a location and nothing else. *)
Definition location_only_page : list (string * fake_page) :=
  [ listing_page 1 "<h1>Venues</h1>"
      (json_array [json_object [("location", json_quote "Leeds")]]) ].


(** The dictionaries among the candidates of a page, each as the loop sees it
    once the benign error flag has been dropped. *)
Definition stripped_dicts (extracted_data : list pyval) : list dict :=
  omap (λ info, match info with
                | PDict d => Some (strip_error d)
                | _ => None
                end) extracted_data.

(** A crawler that reports success and delivers no cleaned text. *)
Definition textless_arun (c : unit) (url : string)
    (config : CrawlerRunConfig unit) : CrawlResult * unit :=
  ({| success := true; cleaned_html := None; extracted_content := None;
      error_message := None |}, c).

(** Pages whose extraction payload is empty, cut short, an empty list, and a
    single object instead of a list. *)
Definition empty_payload_page : list (string * fake_page) :=
  [ listing_page 1 "<h1>Venues</h1>" EmptyString ].

Definition malformed_page : list (string * fake_page) :=
  [ listing_page 1 "<h1>Venues</h1>" "[{" ].

Definition empty_list_page : list (string * fake_page) :=
  [ listing_page 1 "<h1>Venues</h1>" (json_array []) ].

Definition single_object_page : list (string * fake_page) :=
  [ listing_page 1 "<h1>Venues</h1>" (venue_text "Hall" []) ].

(** The two requests of a page, with the states in between. *)
Section Stages.
Context {Crawler Strategy : Type}.
Variable arun :
  Crawler → string → CrawlerRunConfig Strategy → CrawlResult * Crawler.

(** The probe of a page: the answer of [check_no_results], called once the
    page notice has been printed, and the state it leaves. *)
Definition probe_of_page (page_number : Z) (base_url session_id : string)
    (w : world Crawler Strategy) : outcome bool * world Crawler Strategy :=
  check_no_results arun (page_url base_url page_number) session_id
    (with_stdout (stdout w ++ [LogLoading page_number]) w).

(** The extraction request made after the probe: the crawler's answer, and
    the state once the answer has arrived. *)
Definition extraction_of_page (page_number : Z)
    (base_url css_selector : string) (llm_strategy : Strategy)
    (session_id : string) (w : world Crawler Strategy)
  : CrawlResult * world Crawler Strategy :=
  let w1 := (probe_of_page page_number base_url session_id w).2 in
  let url := page_url base_url page_number in
  let config := extraction_config llm_strategy css_selector session_id in
  ((arun (crawler w1) url config).1,
   with_fetch (arun (crawler w1) url config).2 (url, config) w1).
End Stages.

(** Closed decidable facts about the concrete data are settled by
    evaluation. *)
Ltac by_evaluation := apply (bool_decide_unpack _); vm_compute; exact I.

(** * Properties *)

(** ** Strings *)

Lemma prefix_app (p s : string) : String.prefix p (p +:+ s) = true.
Proof.
  induction p as [|a p IH]; simpl.
  - by destruct s.
  - destruct (ascii_dec a a); [done | congruence].
Qed.

Lemma prefix_inv (p h : string) :
  String.prefix p h = true → ∃ s, h = p +:+ s.
Proof.
  revert h. induction p as [|a p IH]; intros h Hp.
  - by exists h.
  - destruct h as [|b h]; simpl in Hp; [done |].
    destruct (ascii_dec a b) as [-> | ]; [| done].
    destruct (IH _ Hp) as [s ->]. by exists s.
Qed.

Lemma str_contains_unfold (needle hay : string) :
  str_contains needle hay =
  String.prefix needle hay ||
  match hay with
  | EmptyString => false
  | String _ hay' => str_contains needle hay'
  end.
Proof. by destruct hay. Qed.

(** [str_contains] is the substring test. *)
Lemma str_contains_spec (needle hay : string) :
  str_contains needle hay = true ↔ ∃ pre post, hay = pre +:+ needle +:+ post.
Proof.
  split.
  - induction hay as [|a hay IH]; rewrite str_contains_unfold; intros H;
      apply orb_true_iff in H as [H | H]; try done.
    + apply prefix_inv in H as [s ->]. by exists EmptyString, s.
    + apply prefix_inv in H as [s ->]. by exists EmptyString, s.
    + destruct (IH H) as (pre & post & ->). by exists (String a pre), post.
  - intros (pre & post & ->).
    induction pre as [|a pre IH].
    + rewrite str_contains_unfold.
      change (EmptyString +:+ needle +:+ post) with (needle +:+ post).
      by rewrite prefix_app.
    + simpl. rewrite IH. apply orb_true_r.
Qed.

(** ** utils/data_utils.py: the two filters *)

Lemma is_complete_site_Forall (site : dict) (required_keys : list string) :
  is_complete_site site required_keys = true ↔
  Forall (λ key, is_Some (site !! key)) required_keys.
Proof.
  unfold is_complete_site. rewrite forallb_forall, Forall_forall.
  split; intros H key Hin.
  - apply elem_of_dom. eapply bool_decide_eq_true_1, H. by apply list_elem_of_In.
  - apply bool_decide_eq_true_2, elem_of_dom, H. by apply list_elem_of_In.
Qed.

Lemma is_complete_site_dom (site site' : dict) (required_keys : list string) :
  dom site = dom site' →
  is_complete_site site required_keys = is_complete_site site' required_keys.
Proof. unfold is_complete_site. by intros ->. Qed.

(** C3. [is_complete_site C R] is true exactly when every key of [R] is a key
    of [C]; the values play no part: replacing every value by any other one
    (a falsy one, say) leaves the answer unchanged. *)
Theorem is_complete_site_iff_keys_present (C : dict) (R : list string) :
  (is_complete_site C R = true ↔ Forall (λ key, is_Some (C !! key)) R) ∧
  (∀ f : pyval → pyval, is_complete_site (f <$> C) R = is_complete_site C R).
Proof.
  split; [apply is_complete_site_Forall |].
  intros f. apply is_complete_site_dom, dom_fmap_L.
Qed.

(** A record whose [reviews] is [0] and whose [rating] is [0.0] is complete. *)
Example is_complete_site_falsy_values :
  is_complete_site
    (<["name" := PStr "Hall"]> (<["location" := PStr "Leeds"]>
     (<["price" := PStr "100"]> (<["capacity" := PStr "50"]>
     (<["rating" := PFloat 0%Qc]> (<["reviews" := PInt 0]>
     {["description" := PStr EmptyString]}))))))
    fieldnames = true.
Proof. vm_compute. reflexivity. Qed.

(** [is_duplicate] on a string is the membership test; being a function of
    its arguments, it changes nothing. *)
Lemma is_duplicate_str (site_name : string) (seen_values : gset hkey) :
  is_duplicate (PStr site_name) seen_values
  = Returned (bool_decide (HStr site_name ∈ seen_values)).
Proof. reflexivity. Qed.

Lemma is_duplicate_spec (site_name : pyval) (seen_values : gset hkey) k :
  py_hash site_name = Some k →
  is_duplicate site_name seen_values = Returned (bool_decide (k ∈ seen_values)).
Proof. unfold is_duplicate. by intros ->. Qed.

Lemma is_complete_site_delete (site : dict) (required_keys : list string) key :
  key ∉ required_keys →
  is_complete_site (delete key site) required_keys
  = is_complete_site site required_keys.
Proof.
  intros Hnot. unfold is_complete_site.
  induction required_keys as [|k ks IH]; [done |]. simpl.
  rewrite IH by set_solver. f_equal.
  apply bool_decide_ext. rewrite dom_delete_L. set_solver.
Qed.

Lemma is_complete_site_missing (site : dict) (required_keys : list string) key :
  key ∈ required_keys → site !! key = None →
  is_complete_site site required_keys = false.
Proof.
  intros Hin Hnone. apply not_true_is_false. intros H.
  apply is_complete_site_Forall in H.
  rewrite Forall_forall in H. destruct (H _ Hin) as [v Hv]. congruence.
Qed.

(** ** utils/data_utils.py: [save_keys_to_csv] *)

Section Save.
Context {Crawler Strategy : Type}.
Implicit Type w : world Crawler Strategy.

Lemma with_files_same w : with_files (files w) w = w.
Proof. by destruct w. Qed.

Lemma dict_to_list_within_schema (rowdict : dict) :
  within_schema rowdict → dict_to_list rowdict = Returned (row_values rowdict).
Proof.
  intros H. unfold dict_to_list.
  rewrite bool_decide_eq_true_2; [done |]. unfold within_schema in H. set_solver.
Qed.

Lemma dict_to_list_extra (rowdict : dict) :
  ¬ within_schema rowdict →
  dict_to_list rowdict =
  Raised (ValueError_extra_fields (dom rowdict ∖ list_to_set fieldnames)).
Proof.
  intros H. unfold dict_to_list.
  rewrite bool_decide_eq_false_2; [done |].
  intros Hempty. apply H. unfold within_schema.
  intros key Hkey. destruct (decide (key ∈ (list_to_set fieldnames : gset string)));
    [done |].
  assert (key ∈ dom rowdict ∖ list_to_set fieldnames) as Hin by set_solver.
  rewrite Hempty in Hin. set_solver.
Qed.



Variable openable : string → bool.

Lemma save_keys_to_csv_nonempty (valid_infos : list dict) filename w :
  valid_infos ≠ [] →
  save_keys_to_csv openable valid_infos filename w =
  match open_error openable filename with
  | Some e => (Raised e, w)
  | None =>
      match
        writerows filename valid_infos
          (with_files (<[filename := [header_row]]> (files w)) w)
      with
      | (Returned _, w') =>
          (Returned (),
           with_stdout (stdout w' ++ [LogSaved (length valid_infos) filename])
             w')
      | (Raised e, w') => (Raised e, w')
      end
  end.
Proof.
  intros Hne. destruct valid_infos as [|r rest]; [done |].
  unfold save_keys_to_csv, mbind, M_bind, file_open_w, writeheader,
    file_write_row.
  destruct (open_error openable filename); [done |].
  cbn [files with_files]. rewrite lookup_insert_eq. cbn [default app].
  rewrite insert_insert_eq.
  change (PStr <$> fieldnames) with header_row.
  unfold with_files at 1. cbn [crawler seen_names stdout fetches files].
  fold (with_files (<[filename := [header_row]]> (files w)) w).
  by destruct (writerows _ _ _) as [[] ?].
Qed.



End Save.

(** ** utils/scraper_utils.py: the loop over the extracted candidates *)

Section Loop.
Context {Crawler Strategy : Type}.
Implicit Type w : world Crawler Strategy.

(** The loop body on a dictionary, case by case. *)
Lemma process_info_dict (required_keys : list string) (acc : list dict)
    (d : dict) w :
  process_info required_keys acc (PDict d) w =
  let w1 := with_stdout (stdout w ++ [LogProcessing (PDict d)]) w in
  if is_complete_site (strip_error d) required_keys then
    match strip_error d !! "name" with
    | None => (Raised (KeyError "name"), w1)
    | Some name =>
        match py_hash name with
        | None => (Raised TypeError_unhashable, w1)
        | Some k =>
            if bool_decide (k ∈ seen_names w)
            then (Returned acc,
                  with_stdout (stdout w1 ++ [LogDuplicate name]) w1)
            else (Returned (acc ++ [strip_error d]),
                  with_seen_names ({[ k ]} ∪ seen_names w) w1)
        end
    end
  else (Returned acc, w1).
Proof.
  unfold process_info, mbind, M_bind, mret, M_ret, print. cbn zeta.
  destruct (is_complete_site _ _); [| done]. cbn [negb].
  destruct (strip_error d !! "name") as [name|]; [| done].
  unfold get_seen_names, lift, is_duplicate, seen_names_add.
  cbn [seen_names with_stdout].
  destruct (py_hash name) as [k|]; [| done].
  by destruct (bool_decide (k ∈ seen_names w)).
Qed.

(** The loop body on anything that is not a dictionary. *)
Lemma process_info_not_dict (required_keys : list string) (acc : list dict)
    (info : pyval) w :
  (∀ d, info ≠ PDict d) →
  process_info required_keys acc info w =
  (Raised (AttributeError "get"),
   with_stdout (stdout w ++ [LogProcessing info]) w).
Proof.
  intros Hnd. unfold process_info, mbind, M_bind, print, raise.
  destruct info; try done. by destruct (Hnd d).
Qed.

Lemma strip_error_lookup_ne (d : dict) key :
  key ≠ "error" → strip_error d !! key = d !! key.
Proof.
  intros Hne. unfold strip_error.
  destruct (d !! "error") as [[| [] | | | | |]|]; try done.
  by apply lookup_delete_ne.
Qed.

(** Only the value [False] is stripped: [0], [True], a message stay. *)
Lemma strip_error_keeps (d : dict) :
  d !! "error" ≠ Some (PBool false) → strip_error d = d.
Proof.
  intros Hne. unfold strip_error.
  by destruct (d !! "error") as [[| [] | | | | |]|].
Qed.

Lemma strip_error_subseteq (d : dict) : strip_error d ⊆ d.
Proof.
  unfold strip_error.
  destruct (d !! "error") as [[| [] | | | | |]|]; try done.
  apply delete_subseteq.
Qed.

(** What one round of the loop does to the list built so far and to
    [seen_names]: nothing, or one record appended and its (new) name added. *)
Lemma process_info_step (required_keys : list string) (acc : list dict)
    (info : pyval) w o w' :
  process_info required_keys acc info w = (o, w') →
  crawler w' = crawler w ∧ fetches w' = fetches w ∧ files w' = files w ∧
  match o with
  | Returned acc' =>
      (acc' = acc ∧ seen_names w' = seen_names w) ∨
      (∃ record k, acc' = acc ++ [record] ∧ name_key record = Some k ∧
                   (k ∉ seen_names w) ∧
                   seen_names w' = {[ k ]} ∪ seen_names w)
  | Raised _ => seen_names w' = seen_names w
  end.
Proof.
  destruct info as [| | | | | |d];
    try (rewrite process_info_not_dict by done; intros [= <- <-]; done).
  rewrite process_info_dict. cbn zeta.
  destruct (is_complete_site _ _);
    [| intros [= <- <-]; do 3 (split; [done |]); by left].
  destruct (strip_error d !! "name") as [name|] eqn:Hname;
    [| intros [= <- <-]; done].
  destruct (py_hash name) as [k|] eqn:Hk; [| intros [= <- <-]; done].
  case_bool_decide as Hin; intros [= <- <-]; cbn;
    [do 3 (split; [done |]); by left |].
  do 3 (split; [done |]). right. exists (strip_error d), k.
  split; [done |]. split; [| done].
  unfold name_key. by rewrite Hname.
Qed.

(** The whole loop: the names it adds to [seen_names] are new, pairwise
    distinct, and, when the loop ends normally, they are exactly the names of
    the records it has appended, in order. *)
Lemma process_all_step (required_keys : list string)
    (extracted_data : list pyval) (acc : list dict) w o w' :
  process_all required_keys acc extracted_data w = (o, w') →
  crawler w' = crawler w ∧ fetches w' = fetches w ∧ files w' = files w ∧
  ∃ ks : list hkey,
    NoDup ks ∧ (∀ k, k ∈ ks → k ∉ seen_names w) ∧
    seen_names w' = list_to_set ks ∪ seen_names w ∧
    match o with
    | Returned acc' =>
        ∃ new, acc' = acc ++ new ∧ name_key <$> new = Some <$> ks
    | Raised _ => True
    end.
Proof.
  revert acc w. induction extracted_data as [|info rest IH]; intros acc w.
  - intros [= <- <-]. do 3 (split; [done |]). exists [].
    split; [constructor |]. split; [set_solver |]. split; [set_solver |].
    exists []. by rewrite app_nil_r.
  - cbn [process_all]. unfold mbind, M_bind.
    destruct (process_info required_keys acc info w) as [[acc1|e] w1] eqn:E1.
    + apply process_info_step in E1 as (Hc1 & Hf1 & Hfs1 & Hstep). intros E2.
      apply IH in E2 as (Hc2 & Hf2 & Hfs2 & ks & Hnd & Hnew & Hseen & Ho).
      split; [congruence |]. split; [congruence |]. split; [congruence |].
      destruct Hstep as [[-> Hs1] | (record & k & -> & Hrk & Hk & Hs1)].
      * exists ks. rewrite Hs1 in *. auto.
      * exists (k :: ks). rewrite Hs1 in *.
        split; [constructor; [| done] |].
        { intros Hin. apply (Hnew _ Hin). set_solver. }
        split. { intros k' [-> | Hin]%elem_of_cons; [done |].
                 specialize (Hnew _ Hin). set_solver. }
        split; [set_solver |].
        destruct o as [acc'|]; [| done].
        destruct Ho as (new & -> & Hnames). exists (record :: new).
        split; [by rewrite <- app_assoc |]. cbn. by rewrite Hrk, Hnames.
    + intros [= <- <-].
      apply process_info_step in E1 as (Hc1 & Hf1 & Hfs1 & Hs1).
      do 3 (split; [done |]). exists [].
      split; [constructor |]. split; [set_solver |]. split; [set_solver | done].
Qed.

(** The loop reads the state only through [seen_names]: from two states with
    the same set it computes the same result and leaves the same set. *)
Lemma process_info_seen_only (required_keys : list string) (acc : list dict)
    (info : pyval) w1 w2 :
  seen_names w1 = seen_names w2 →
  (process_info required_keys acc info w1).1
  = (process_info required_keys acc info w2).1 ∧
  seen_names (process_info required_keys acc info w1).2
  = seen_names (process_info required_keys acc info w2).2.
Proof.
  intros Hseen.
  destruct info as [| | | | | |d];
    try (rewrite !process_info_not_dict by done; done).
  rewrite !process_info_dict. cbn zeta. rewrite Hseen.
  destruct (is_complete_site _ _); [| done].
  destruct (strip_error d !! "name") as [name|]; [| done].
  destruct (py_hash name) as [k|]; [| done].
  by case_bool_decide.
Qed.

Lemma process_all_seen_only (required_keys : list string)
    (extracted_data : list pyval) (acc : list dict) w1 w2 :
  seen_names w1 = seen_names w2 →
  (process_all required_keys acc extracted_data w1).1
  = (process_all required_keys acc extracted_data w2).1 ∧
  seen_names (process_all required_keys acc extracted_data w1).2
  = seen_names (process_all required_keys acc extracted_data w2).2.
Proof.
  revert acc w1 w2.
  induction extracted_data as [|info rest IH]; intros acc w1 w2 Hseen; [done |].
  cbn [process_all]. unfold mbind, M_bind.
  destruct (process_info_seen_only required_keys acc info w1 w2 Hseen)
    as [Ho Hs].
  destruct (process_info required_keys acc info w1) as [[acc1|e1] w1'],
    (process_info required_keys acc info w2) as [[acc2|e2] w2'];
    cbn in Ho, Hs; try done.
  injection Ho as ->. by apply IH.
Qed.

Lemma strip_error_missing (d : dict) key :
  d !! key = None → strip_error d !! key = None.
Proof.
  intros Hnone. eapply lookup_weaken_None; [done |]. apply strip_error_subseteq.
Qed.

(** C4. A candidate that lacks a required key goes through the loop body
    without being appended to the accepted list and without any change to
    [seen_names] (only the trace line is printed); the candidates after it are
    then processed exactly as if it had not been there.  So a complete
    candidate met next whose name is not in [seen_names] is accepted, its name
    being added then, whatever the name of the incomplete one: the same name
    in particular. *)
Theorem incomplete_candidate_is_skipped (required_keys : list string)
    (acc : list dict) (c : dict) (key : string) (rest : list pyval) w :
  key ∈ required_keys →
  c !! key = None →
  process_info required_keys acc (PDict c) w
  = (Returned acc, with_stdout (stdout w ++ [LogProcessing (PDict c)]) w) ∧
  seen_names (process_info required_keys acc (PDict c) w).2 = seen_names w ∧
  (process_all required_keys acc (PDict c :: rest) w).1
  = (process_all required_keys acc rest w).1 ∧
  seen_names (process_all required_keys acc (PDict c :: rest) w).2
  = seen_names (process_all required_keys acc rest w).2 ∧
  (∀ (c' : dict) (name : pyval) (k : hkey),
     is_complete_site (strip_error c') required_keys = true →
     strip_error c' !! "name" = Some name →
     py_hash name = Some k →
     k ∉ seen_names w →
     process_all required_keys acc [PDict c; PDict c'] w
     = (Returned (acc ++ [strip_error c']),
        with_seen_names ({[ k ]} ∪ seen_names w)
          (with_stdout
             (stdout w ++ [LogProcessing (PDict c); LogProcessing (PDict c')])
             w))).
Proof.
  intros Hkey Hnone.
  assert (process_info required_keys acc (PDict c) w
          = (Returned acc,
             with_stdout (stdout w ++ [LogProcessing (PDict c)]) w)) as Hbody.
  { rewrite process_info_dict. cbn zeta.
    by rewrite (is_complete_site_missing _ _ key Hkey
                  (strip_error_missing _ _ Hnone)). }
  split; [done |]. rewrite Hbody. split; [done |].
  split; [| split].
  - cbn [process_all]. unfold mbind, M_bind. rewrite Hbody.
    by apply process_all_seen_only.
  - cbn [process_all]. unfold mbind, M_bind. rewrite Hbody.
    by apply process_all_seen_only.
  - intros c' name k Hcomplete Hname Hhash Hnew.
    cbn [process_all]. unfold mbind, M_bind. rewrite Hbody.
    rewrite process_info_dict. cbn zeta.
    rewrite Hcomplete, Hname, Hhash. cbn [seen_names with_stdout].
    rewrite bool_decide_eq_false_2 by done.
    unfold mret, M_ret, with_seen_names, with_stdout. cbn.
    by rewrite <- app_assoc.
Qed.

(** C8. A candidate whose [error] key holds [False] and which has every
    required key (the error key not being one of them) loses that key before
    the completeness check, passes the check, and is then treated like any
    complete candidate; the record appended for it is the candidate without
    the key, and the CSV writer, which would refuse the key, accepts it. *)
Theorem error_false_is_stripped (required_keys : list string)
    (acc : list dict) (c : dict) w :
  c !! "error" = Some (PBool false) →
  "error" ∉ required_keys →
  is_complete_site c required_keys = true →
  strip_error c = delete "error" c ∧
  is_complete_site (strip_error c) required_keys = true ∧
  delete "error" c !! "error" = None ∧
  process_info required_keys acc (PDict c) w =
  (let w1 := with_stdout (stdout w ++ [LogProcessing (PDict c)]) w in
   match delete "error" c !! "name" with
   | None => (Raised (KeyError "name"), w1)
   | Some name =>
       match py_hash name with
       | None => (Raised TypeError_unhashable, w1)
       | Some k =>
           if bool_decide (k ∈ seen_names w)
           then (Returned acc, with_stdout (stdout w1 ++ [LogDuplicate name]) w1)
           else (Returned (acc ++ [delete "error" c]),
                 with_seen_names ({[ k ]} ∪ seen_names w) w1)
       end
   end) ∧
  (within_schema (delete "error" c) →
   dict_to_list c
   = Raised (ValueError_extra_fields (dom c ∖ list_to_set fieldnames)) ∧
   dict_to_list (delete "error" c) = Returned (row_values c)).
Proof.
  intros Herr Hnot Hcomplete.
  assert (strip_error c = delete "error" c) as Hstrip
    by (unfold strip_error; by rewrite Herr).
  split; [done |]. rewrite Hstrip.
  assert (is_complete_site (delete "error" c) required_keys = true) as Hc
    by (by rewrite is_complete_site_delete).
  split; [done |]. split; [apply lookup_delete_eq |].
  split.
  - rewrite process_info_dict. cbn zeta. by rewrite Hstrip, Hc.
  - intros Hschema. split.
    + apply dict_to_list_extra. unfold within_schema. intros Hsub.
      assert ("error" ∈ dom c) as Hin by (apply elem_of_dom; eauto).
      apply Hsub in Hin. vm_compute in Hin. set_solver.
    + rewrite dict_to_list_within_schema by done. f_equal.
      unfold row_values. apply list_fmap_ext. intros i key Hi.
      rewrite lookup_delete_ne; [done |].
      intros <-. apply list_elem_of_lookup_2 in Hi. vm_compute in Hi. set_solver.
Qed.

End Loop.

(** ** utils/scraper_utils.py: one page *)

Section Page.
Context {Crawler Strategy : Type}.
Variable arun :
  Crawler → string → CrawlerRunConfig Strategy → CrawlResult * Crawler.
Variable json_loads : string → option pyval.
Implicit Type w : world Crawler Strategy.

(** [check_no_results], case by case. *)
Lemma check_no_results_eq (url session_id : string) w :
  check_no_results arun url session_id w =
  let '(result, crawler') := arun (crawler w) url (probe_config session_id) in
  let w1 := with_fetch crawler' (url, probe_config session_id) w in
  if success result then
    match cleaned_html result with
    | None => (Raised TypeError_not_iterable, w1)
    | Some html =>
        if str_contains "No Results Found" html then (Returned true, w1)
        else (Returned false,
              with_stdout (stdout w1 ++ [LogProbeError (error_message result)])
                w1)
    end
  else (Returned false, w1).
Proof.
  unfold check_no_results, mbind, M_bind, crawler_arun.
  destruct (arun _ _ _) as [result crawler'].
  destruct (success result); [| done].
  destruct (cleaned_html result) as [html|]; [| done].
  by destruct (str_contains _ html).
Qed.

Lemma check_no_results_step (url session_id : string) w o w' :
  check_no_results arun url session_id w = (o, w') →
  seen_names w' = seen_names w ∧ files w' = files w.
Proof.
  rewrite check_no_results_eq.
  destruct (arun _ _ _) as [result crawler'].
  destruct (success result); [| by intros [= <- <-]].
  destruct (cleaned_html result) as [html|]; [| by intros [= <- <-]].
  by destruct (str_contains _ html); intros [= <- <-].
Qed.

(** One call of [fetch_and_process_page]: the names it adds to [seen_names]
    are new and pairwise distinct, and when the call returns they are
    exactly the names of the records it returns, in order. *)
Lemma fetch_and_process_page_step (page_number : Z)
    (base_url css_selector : string) (llm_strategy : Strategy)
    (session_id : string) (required_keys : list string) w o w' :
  fetch_and_process_page arun json_loads page_number base_url css_selector
    llm_strategy session_id required_keys w = (o, w') →
  files w' = files w ∧
  ∃ ks : list hkey,
    NoDup ks ∧ (∀ k, k ∈ ks → k ∉ seen_names w) ∧
    seen_names w' = list_to_set ks ∪ seen_names w ∧
    match o with
    | Returned (records, _) => name_key <$> records = Some <$> ks
    | Raised _ => True
    end.
Proof.
  assert (∀ (v : outcome (list dict * bool)) w0,
            seen_names w0 = seen_names w → files w0 = files w →
            returned_records v = [] → (v, w0) = (o, w') →
            files w' = files w ∧
            ∃ ks : list hkey,
              NoDup ks ∧ (∀ k, k ∈ ks → k ∉ seen_names w) ∧
              seen_names w' = list_to_set ks ∪ seen_names w ∧
              match o with
              | Returned (records, _) => name_key <$> records = Some <$> ks
              | Raised _ => True
              end) as Hsame.
  { intros v w0 Hs Hf Hv [= <- <-]. split; [done |]. exists [].
    split; [constructor |]. split; [set_solver |]. split; [set_solver |].
    destruct v as [[records flag]|]; [| done]. cbn in Hv. by subst. }
  unfold fetch_and_process_page, mbind, M_bind, print. cbn zeta.
  destruct (check_no_results _ _ _ _) as [[[]|e] w1] eqn:Hprobe;
    apply check_no_results_step in Hprobe as [Hs1 Hf1];
    cbn [seen_names files with_stdout] in Hs1, Hf1;
    [by apply Hsame | | by apply Hsame].
  unfold crawler_arun.
  destruct (arun _ _ _) as [result crawler2].
  set (w2 := with_fetch _ _ w1).
  assert (seen_names w2 = seen_names w ∧ files w2 = files w) as [Hs2 Hf2]
    by done.
  clearbody w2.
  destruct (negb _); [by apply Hsame |].
  destruct (json_loads _) as [extracted_data|]; [| by apply Hsame].
  destruct (negb _); [by apply Hsame |].
  unfold lift.
  destruct (py_iter extracted_data) as [items|e]; [| by apply Hsame].
  destruct (process_all _ _ _ _) as [[complete_info|e] w3] eqn:Hloop;
    apply process_all_step in Hloop
      as (_ & _ & Hf3 & ks & Hnd & Hnew & Hs3 & Hacc);
    cbn [seen_names files with_stdout] in Hf3, Hnew, Hs3.
  - destruct Hacc as (new & -> & Hnames). cbn [app] in *.
    destruct new as [|record new];
      intros [= <- <-]; cbn [seen_names files with_stdout].
    + split; [congruence |]. exists ks. rewrite <- Hs2. by rewrite Hs2 in *.
    + split; [congruence |]. exists ks. rewrite Hs2 in *. done.
  - intros [= <- <-]. split; [congruence |]. exists ks. by rewrite Hs2 in *.
Qed.

(** C1. When the probe succeeds and its cleaned text contains the phrase
    [No Results Found], the call returns the empty list with the terminal flag
    set; the probe is the only request made (no extraction request), only the
    page notice is printed, and [seen_names] is what it was. *)
Theorem no_results_marker_is_terminal (page_number : Z)
    (base_url css_selector : string) (llm_strategy : Strategy)
    (session_id : string) (required_keys : list string) w
    (probe : CrawlResult) (crawler' : Crawler) (before after : string) :
  arun (crawler w) (page_url base_url page_number) (probe_config session_id)
  = (probe, crawler') →
  success probe = true →
  cleaned_html probe = Some (before +:+ "No Results Found" +:+ after) →
  ∃ w',
    fetch_and_process_page arun json_loads page_number base_url css_selector
      llm_strategy session_id required_keys w = (Returned ([], true), w') ∧
    seen_names w' = seen_names w ∧
    fetches w'
    = fetches w ++ [(page_url base_url page_number, probe_config session_id)] ∧
    stdout w' = stdout w ++ [LogLoading page_number] ∧
    crawler w' = crawler' ∧
    files w' = files w.
Proof.
  intros Harun Hsuccess Hhtml.
  exists (with_fetch crawler'
            (page_url base_url page_number, probe_config session_id)
            (with_stdout (stdout w ++ [LogLoading page_number]) w)).
  split; [| done].
  unfold fetch_and_process_page, mbind, M_bind, print. cbn zeta.
  rewrite check_no_results_eq. cbn [crawler with_stdout].
  rewrite Harun, Hsuccess, Hhtml.
  assert (str_contains "No Results Found"
            (before +:+ "No Results Found" +:+ after) = true) as ->
    by (apply str_contains_spec; eauto).
  done.
Qed.

(** A failed probe is answered [False] without a word on standard output. *)
Lemma check_no_results_probe_failure (url session_id : string) w
    (probe : CrawlResult) (crawler' : Crawler) :
  arun (crawler w) url (probe_config session_id) = (probe, crawler') →
  success probe = false →
  check_no_results arun url session_id w
  = (Returned false, with_fetch crawler' (url, probe_config session_id) w).
Proof.
  intros Harun Hfail. rewrite check_no_results_eq. by rewrite Harun, Hfail.
Qed.

(** The message written for the probe is printed when the probe has succeeded
    and the phrase is absent. *)
Lemma check_no_results_probe_success_logged (url session_id : string) w
    (probe : CrawlResult) (crawler' : Crawler) (html : string) :
  arun (crawler w) url (probe_config session_id) = (probe, crawler') →
  success probe = true →
  cleaned_html probe = Some html →
  str_contains "No Results Found" html = false →
  check_no_results arun url session_id w
  = (Returned false,
     with_stdout (stdout w ++ [LogProbeError (error_message probe)])
       (with_fetch crawler' (url, probe_config session_id) w)).
Proof.
  intros Harun Hsuccess Hhtml Habsent. rewrite check_no_results_eq.
  by rewrite Harun, Hsuccess, Hhtml, Habsent.
Qed.

Lemma names_of_keys (records : list dict) (ks : list hkey) :
  name_key <$> records = Some <$> ks →
  names_of records = list_to_set ks ∧
  Forall (λ record, is_Some (name_key record)) records ∧
  (NoDup ks → NoDup (name_key <$> records)).
Proof.
  intros Hnames. split; [| split].
  - unfold names_of. f_equal.
    revert ks Hnames. induction records as [|r records IH]; intros [|k ks] H;
      try done.
    injection H as Hr Hrest. cbn. rewrite Hr. cbn. f_equal. by apply IH.
  - revert ks Hnames. induction records as [|r records IH]; intros [|k ks] H;
      try done.
    injection H as Hr Hrest. constructor; [by rewrite Hr | by eapply IH].
  - intros Hnd. rewrite Hnames. apply NoDup_fmap_2; [| done]. by intros ? ? [= ->].
Qed.

(** C5. After a call, [seen_names] contains everything it contained before;
    when the call returns, the set is the former one together with exactly the
    names of the records returned, each of which was absent before.  Round by
    round (also in a call that raises later on): a candidate either leaves the
    accepted list and the set as they were, or is appended while its name,
    absent so far, is added; a round that raises changes neither. *)
Theorem seen_names_grows_by_accepted_names (page_number : Z)
    (base_url css_selector : string) (llm_strategy : Strategy)
    (session_id : string) (required_keys : list string)
    (acc : list dict) (info : pyval) w :
  (let '(o, w') :=
     fetch_and_process_page arun json_loads page_number base_url css_selector
       llm_strategy session_id required_keys w in
   seen_names w ⊆ seen_names w' ∧
   match o with
   | Returned (records, _) =>
       seen_names w' = seen_names w ∪ names_of records ∧
       names_of records ## seen_names w ∧
       Forall (λ record, is_Some (name_key record)) records
   | Raised _ => True
   end) ∧
  (let '(o, w') := process_info required_keys acc info w in
   match o with
   | Returned acc' =>
       (acc' = acc ∧ seen_names w' = seen_names w) ∨
       (∃ record k, acc' = acc ++ [record] ∧ name_key record = Some k ∧
                    (k ∉ seen_names w) ∧
                    seen_names w' = {[ k ]} ∪ seen_names w)
   | Raised _ => seen_names w' = seen_names w
   end).
Proof.
  split.
  - destruct (fetch_and_process_page _ _ _ _ _ _ _ _ _) as [o w'] eqn:E.
    apply fetch_and_process_page_step in E as (_ & ks & Hnd & Hnew & Hseen & Ho).
    split; [set_solver |].
    destruct o as [[records flag]|]; [| done].
    apply names_of_keys in Ho as (-> & Hall & _).
    split; [set_solver |]. split; [| done].
    intros k Hk1 Hk2. apply (Hnew k); [| done]. set_solver.
  - destruct (process_info required_keys acc info w) as [o w'] eqn:E.
    by apply process_info_step in E as (_ & _ & _ & Hstep).
Qed.

(** Over any sequence of calls, the records returned have names that are
    pairwise distinct, were not in [seen_names] at the start, and are in it at
    the end. *)
Lemma run_calls_step (calls : list page_call) w records w' :
  run_calls arun json_loads calls w = (records, w') →
  ∃ ks : list hkey,
    name_key <$> records = Some <$> ks ∧ NoDup ks ∧
    (∀ k, k ∈ ks → k ∉ seen_names w) ∧
    list_to_set ks ∪ seen_names w ⊆ seen_names w'.
Proof.
  revert w records w'. induction calls as [|c rest IH]; intros w records w'.
  - intros [= <- <-]. exists []. split; [done |]. split; [constructor |].
    split; set_solver.
  - cbn [run_calls]. unfold run_call.
    destruct (fetch_and_process_page _ _ _ _ _ _ _ _ _) as [o w1] eqn:E1.
    destruct (run_calls _ _ rest w1) as [records2 w2] eqn:E2.
    intros [= <- <-].
    apply fetch_and_process_page_step in E1
      as (_ & ks1 & Hnd1 & Hnew1 & Hseen1 & Ho).
    apply IH in E2 as (ks2 & Hnames2 & Hnd2 & Hnew2 & Hseen2).
    rewrite Hseen1 in Hnew2, Hseen2.
    destruct o as [[records1 flag]|]; cbn [returned_records].
    + exists (ks1 ++ ks2). rewrite !fmap_app, Ho, Hnames2.
      split; [done |]. split.
      { apply NoDup_app. split; [done |]. split; [| done].
        intros k Hk1 Hk2. apply (Hnew2 k Hk2). set_solver. }
      split.
      { intros k [Hk | Hk]%elem_of_app; [by apply Hnew1 |].
        specialize (Hnew2 k Hk). set_solver. }
      rewrite list_to_set_app_L. set_solver.
    + exists ks2. split; [done |]. split; [done |]. split.
      { intros k Hk. specialize (Hnew2 k Hk). set_solver. }
      set_solver.
Qed.

(** C7 (amended). Over any sequence of calls on the same [seen_names] set,
    every record returned has a name, and the names are pairwise distinct;
    none of them was in the set at the start (in particular when it starts
    empty), and all of them are in it at the end. *)
Theorem accepted_names_pairwise_distinct (calls : list page_call) w :
  let '(records, w') := run_calls arun json_loads calls w in
  Forall (λ record, is_Some (name_key record)) records ∧
  NoDup (name_key <$> records) ∧
  names_of records ## seen_names w ∧
  names_of records ∪ seen_names w ⊆ seen_names w'.
Proof.
  destruct (run_calls _ _ _ _) as [records w'] eqn:E.
  apply run_calls_step in E as (ks & Hnames & Hnd & Hnew & Hseen).
  apply names_of_keys in Hnames as (-> & Hall & Hdistinct).
  split; [done |]. split; [by apply Hdistinct |]. split; [| done].
  intros k Hk1 Hk2. apply (Hnew k); [| done]. set_solver.
Qed.

(** When [name] is a required key, the loop never raises [KeyError]. *)
Lemma process_info_no_KeyError (required_keys : list string) (acc : list dict)
    (info : pyval) w key :
  "name" ∈ required_keys →
  (process_info required_keys acc info w).1 ≠ Raised (KeyError key).
Proof.
  intros Hname.
  destruct info as [| | | | | |d];
    try (rewrite process_info_not_dict by done; done).
  rewrite process_info_dict. cbn zeta.
  destruct (is_complete_site _ _) eqn:Hc; [| done].
  apply is_complete_site_Forall in Hc. rewrite Forall_forall in Hc.
  destruct (Hc _ Hname) as [name ->].
  destruct (py_hash name) as [k|]; [| done].
  by case_bool_decide.
Qed.

Lemma process_all_no_KeyError (required_keys : list string)
    (extracted_data : list pyval) (acc : list dict) w key :
  "name" ∈ required_keys →
  (process_all required_keys acc extracted_data w).1 ≠ Raised (KeyError key).
Proof.
  intros Hname. revert acc w.
  induction extracted_data as [|info rest IH]; intros acc w; [done |].
  cbn [process_all]. unfold mbind, M_bind.
  pose proof (process_info_no_KeyError required_keys acc info w key Hname) as H1.
  destruct (process_info required_keys acc info w) as [[acc1|e] w1]; [apply IH |].
  done.
Qed.

(** C10. When [name] is one of the required keys, no call raises [KeyError]:
    the completeness check, which runs first, has found the key.  When it is
    not, a candidate that has every required key but no [name] passes the check
    and the lookup raises [KeyError] out of the loop. *)
Theorem name_lookup_guarded_by_completeness (page_number : Z)
    (base_url css_selector : string) (llm_strategy : Strategy)
    (session_id : string) (required_keys : list string) w :
  ("name" ∈ required_keys →
   ∀ key,
     (fetch_and_process_page arun json_loads page_number base_url css_selector
        llm_strategy session_id required_keys w).1 ≠ Raised (KeyError key)) ∧
  ("name" ∉ required_keys →
   ∀ (c : dict) (acc : list dict) (rest : list pyval),
     c !! "name" = None →
     is_complete_site (strip_error c) required_keys = true →
     process_all required_keys acc (PDict c :: rest) w
     = (Raised (KeyError "name"),
        with_stdout (stdout w ++ [LogProcessing (PDict c)]) w)).
Proof.
  split.
  - intros Hname key.
    unfold fetch_and_process_page, mbind, M_bind, print. cbn zeta.
    destruct (check_no_results _ _ _ _) as [[[]|e] w1] eqn:Hprobe; [done | |].
    + unfold crawler_arun. destruct (arun _ _ _) as [result crawler2].
      destruct (negb _); [done |].
      destruct (json_loads _) as [extracted_data|]; [| done].
      destruct (negb _); [done |].
      unfold lift.
      destruct (py_iter extracted_data) as [items|e] eqn:Hiter.
      * set (w2 := with_stdout _ _).
        pose proof (process_all_no_KeyError required_keys items [] w2 key Hname)
          as Hloop.
        destruct (process_all _ _ _ _) as [[[|record complete_info]|e] w3];
          try done.
        intros [= ->]. by apply Hloop.
      * by destruct extracted_data; simplify_eq/=.
    + rewrite check_no_results_eq in Hprobe.
      destruct (arun _ _ _) as [result crawler1].
      destruct (success result); [| done].
      destruct (cleaned_html result) as [html|]; [| by simplify_eq/=].
      by destruct (str_contains _ html).
  - intros _ c acc rest Hnone Hcomplete.
    cbn [process_all]. unfold mbind, M_bind.
    rewrite process_info_dict. cbn zeta.
    by rewrite Hcomplete, (strip_error_missing _ _ Hnone).
Qed.

End Page.

(** * The model at work *)

Example venue_text_decodes :
  json_decode (json_array [venue_text "Hall" [("error", "false")]])
  = Some (PList [PDict (<["error" := PBool false]> (venue (PStr "Hall")))]).
Proof. vm_compute. reflexivity. Qed.

(** The run of the specification's example: two records from the first page,
    one new record from the second, the stop signal on the third. *)
Example three_pages_run :
  (run_calls site_arun json_decode
     [listing_call 1 fieldnames; listing_call 2 fieldnames;
      listing_call 3 fieldnames]
     (start three_pages)).1
  = [venue (PStr "Hall"); venue (PStr "Barn"); venue (PStr "Loft")] ∧
  (run_call site_arun json_decode (listing_call 3 fieldnames)
     (start three_pages)).1
  = Returned ([], true).
Proof. split; vm_compute; reflexivity. Qed.

(** ** Instances of the theorems *)

Lemma no_results_marker_is_terminal_witness :
  ∃ w',
    fetch_and_process_page site_arun json_decode 3 listing_url ".venue" ()
      "venue_crawl_session" fieldnames (start three_pages)
    = (Returned ([], true), w') ∧
    seen_names w' = ∅ ∧
    fetches w'
    = [(page_url listing_url 3, probe_config "venue_crawl_session")] ∧
    stdout w' = [LogLoading 3] ∧
    crawler w' = three_pages ∧
    files w' = ∅.
Proof.
  apply (no_results_marker_is_terminal site_arun json_decode 3 listing_url
           ".venue" () "venue_crawl_session" fieldnames (start three_pages)
           {| success := true;
              cleaned_html := Some "<h1>No Results Found</h1>";
              extracted_content := None;
              error_message := None |}
           three_pages "<h1>" "</h1>");
    vm_compute; reflexivity.
Defined.




Lemma incomplete_candidate_is_skipped_witness :
  let c := delete "description" (venue (PStr "Hall")) in
  let w := start [] in
  process_info fieldnames [] (PDict c) w
  = (Returned [], with_stdout [LogProcessing (PDict c)] w) ∧
  seen_names (process_info fieldnames [] (PDict c) w).2 = ∅ ∧
  process_all fieldnames [] [PDict c; PDict (venue (PStr "Hall"))] w
  = (Returned [venue (PStr "Hall")],
     with_seen_names {[ HStr "Hall" ]}
       (with_stdout
          [LogProcessing (PDict c);
           LogProcessing (PDict (venue (PStr "Hall")))] w)).
Proof.
  cbn zeta.
  destruct (incomplete_candidate_is_skipped fieldnames []
              (delete "description" (venue (PStr "Hall"))) "description"
              [] (start []))
    as (Hbody & Hseen & _ & _ & Haccepted).
  - by_evaluation.
  - vm_compute. reflexivity.
  - split; [exact Hbody |]. split; [exact Hseen |].
    rewrite (Haccepted (venue (PStr "Hall")) (PStr "Hall") (HStr "Hall"));
      [vm_compute; reflexivity | vm_compute; reflexivity
      | vm_compute; reflexivity | reflexivity | by_evaluation].
Defined.

(** The complete venue met after the incomplete one of the same name is
    accepted. *)
Example same_name_accepted_after_incomplete :
  (process_all fieldnames []
     [PDict (delete "description" (venue (PStr "Hall")));
      PDict (venue (PStr "Hall"))] (start [])).1
  = Returned [venue (PStr "Hall")].
Proof. vm_compute. reflexivity. Qed.

Lemma error_false_is_stripped_witness :
  process_info fieldnames []
    (PDict (<["error" := PBool false]> (venue (PStr "Loft")))) (start [])
  = (Returned [venue (PStr "Loft")],
     with_seen_names {[ HStr "Loft" ]}
       (with_stdout
          [LogProcessing
             (PDict (<["error" := PBool false]> (venue (PStr "Loft"))))]
          (start []))) ∧
  dict_to_list (<["error" := PBool false]> (venue (PStr "Loft")))
  = Raised (ValueError_extra_fields {[ "error" ]}) ∧
  dict_to_list (venue (PStr "Loft"))
  = Returned (row_values (venue (PStr "Loft"))).
Proof.
  destruct (error_false_is_stripped fieldnames []
              (<["error" := PBool false]> (venue (PStr "Loft"))) (start []))
    as (Hstrip & Hcomplete & Hgone & Hbody & Hcsv).
  - vm_compute. reflexivity.
  - by_evaluation.
  - vm_compute. reflexivity.
  - split; [rewrite Hbody; vm_compute; reflexivity |].
    destruct Hcsv as [Hraw Hstripped].
    + by_evaluation.
    + split; [rewrite Hraw | ]; vm_compute; reflexivity.
Defined.

Lemma name_lookup_guarded_by_completeness_witness :
  (fetch_and_process_page site_arun json_decode 1 listing_url ".venue" ()
     "venue_crawl_session" fieldnames (start location_only_page)).1
  ≠ Raised (KeyError "name") ∧
  process_all ["location"] [] [PDict {[ "location" := PStr "Leeds" ]}]
    (start location_only_page)
  = (Raised (KeyError "name"),
     with_stdout [LogProcessing (PDict {[ "location" := PStr "Leeds" ]})]
       (start location_only_page)).
Proof.
  split.
  - apply (name_lookup_guarded_by_completeness site_arun json_decode 1
             listing_url ".venue" () "venue_crawl_session" fieldnames
             (start location_only_page)).
    by_evaluation.
  - refine (proj2 (name_lookup_guarded_by_completeness site_arun json_decode 1
                     listing_url ".venue" () "venue_crawl_session" ["location"]
                     (start location_only_page))
              _ {[ "location" := PStr "Leeds" ]} [] [] _ _).
    + by_evaluation.
    + vm_compute. reflexivity.
    + vm_compute. reflexivity.
Defined.

(** With [location] as the only required key, the page of the venue that has
    nothing else makes the call raise [KeyError]. *)
Example missing_name_raises_KeyError :
  (fetch_and_process_page site_arun json_decode 1 listing_url ".venue" ()
     "venue_crawl_session" ["location"] (start location_only_page)).1
  = Raised (KeyError "name").
Proof. vm_compute. reflexivity. Qed.

(** A venue whose name is the empty string has the [name] key, so it is
    complete, and it is returned. *)
Lemma accepted_record_with_empty_name :
  (run_calls site_arun json_decode [listing_call 1 fieldnames]
     (start nameless_page)).1
  = [venue (PStr EmptyString)] ∧
  venue (PStr EmptyString) !! "name" = Some (PStr EmptyString).
Proof. split; vm_compute; reflexivity. Qed.

(** C6 (the code at a failed probe). On a site that answers no request the
    probe fails; the call goes on to the extraction request and returns the
    empty list with the terminal flag unset, but standard output holds the page
    notice and the message of the extraction request only: nothing was printed
    for the failed probe. *)
Theorem probe_failure_is_not_logged :
  fetch_and_process_page site_arun json_decode 1 listing_url ".venue" ()
    "venue_crawl_session" fieldnames (start [])
  = (Returned ([], false),
     {| crawler := [];
        seen_names := ∅;
        stdout := [ LogLoading 1;
                    LogFetchError 1 (Some "net::ERR_NAME_NOT_RESOLVED") ];
        fetches :=
          [ (page_url listing_url 1, probe_config "venue_crawl_session");
            (page_url listing_url 1,
             extraction_config () ".venue" "venue_crawl_session") ];
        files := ∅ |}).
Proof. vm_compute. reflexivity. Qed.

(** The message meant for the failed probe is printed after a successful one:
    on the first of the three pages the probe succeeds, the phrase is absent,
    and the line appears (with no error message to show). *)
Example probe_message_after_success :
  stdout
    (check_no_results site_arun (page_url listing_url 1) "venue_crawl_session"
       (start three_pages)).2
  = [LogProbeError None].
Proof. vm_compute. reflexivity. Qed.

(** * Further properties of the two modules *)

(** ** More on the loop over the candidates *)

Section Candidates.
Context {Crawler Strategy : Type}.
Implicit Type w : world Crawler Strategy.

(** The loop only appends to standard output. *)
Lemma process_info_stdout (required_keys : list string) (acc : list dict)
    (info : pyval) w :
  ∃ lines,
    stdout (process_info required_keys acc info w).2
    = stdout w ++ LogProcessing info :: lines.
Proof.
  destruct info as [| | | | | |d];
    try (rewrite process_info_not_dict by done; by exists []).
  rewrite process_info_dict. cbn zeta.
  destruct (is_complete_site _ _); [| by exists []].
  destruct (strip_error d !! "name") as [name|]; [| by exists []].
  destruct (py_hash name) as [k|]; [| by exists []].
  case_bool_decide; [| by exists []].
  exists [LogDuplicate name]. cbn. by rewrite <- app_assoc.
Qed.

Lemma process_all_stdout (required_keys : list string)
    (extracted_data : list pyval) (acc : list dict) w :
  ∃ lines,
    stdout (process_all required_keys acc extracted_data w).2
    = stdout w ++ lines.
Proof.
  revert acc w. induction extracted_data as [|info rest IH]; intros acc w.
  - exists []. by rewrite app_nil_r.
  - cbn [process_all]. unfold mbind, M_bind.
    destruct (process_info_stdout required_keys acc info w) as [l1 H1].
    destruct (process_info required_keys acc info w) as [[acc1|e] w1];
      cbn [snd] in H1.
    + destruct (IH acc1 w1) as [l2 H2]. rewrite H2, H1.
      eexists. by rewrite <- app_assoc.
    + eauto.
Qed.

(** The loop over a concatenation is the loop over the first part followed by
    the loop over the second. *)
Lemma process_all_app (required_keys : list string)
    (first second : list pyval) (acc : list dict) w :
  process_all required_keys acc (first ++ second) w =
  match process_all required_keys acc first w with
  | (Returned acc1, w1) => process_all required_keys acc1 second w1
  | (Raised e, w1) => (Raised e, w1)
  end.
Proof.
  revert acc w. induction first as [|info rest IH]; intros acc w; [done |].
  cbn [app process_all]. unfold mbind, M_bind.
  destruct (process_info required_keys acc info w) as [[acc1|e] w1]; [| done].
  apply IH.
Qed.

(** The list built so far is only ever extended: starting from [acc] gives
    what starting from the empty list gives, with [acc] in front. *)
Lemma process_info_acc (required_keys : list string) (acc : list dict)
    (info : pyval) w :
  process_info required_keys acc info w =
  match process_info required_keys [] info w with
  | (Returned new, w1) => (Returned (acc ++ new), w1)
  | (Raised e, w1) => (Raised e, w1)
  end.
Proof.
  destruct info as [| | | | | |d];
    try (rewrite !process_info_not_dict by done; done).
  rewrite !process_info_dict. cbn zeta.
  destruct (is_complete_site _ _); [| by rewrite app_nil_r].
  destruct (strip_error d !! "name") as [name|]; [| done].
  destruct (py_hash name) as [k|]; [| done].
  case_bool_decide; [by rewrite app_nil_r | done].
Qed.

Lemma process_all_acc (required_keys : list string)
    (extracted_data : list pyval) (acc : list dict) w :
  process_all required_keys acc extracted_data w =
  match process_all required_keys [] extracted_data w with
  | (Returned new, w1) => (Returned (acc ++ new), w1)
  | (Raised e, w1) => (Raised e, w1)
  end.
Proof.
  revert acc w. induction extracted_data as [|info rest IH]; intros acc w.
  - cbn. by rewrite app_nil_r.
  - cbn [process_all]. unfold mbind, M_bind.
    rewrite (process_info_acc required_keys acc).
    destruct (process_info required_keys [] info w) as [[new1|e] w1]; [| done].
    rewrite (IH (acc ++ new1)), (IH new1).
    destruct (process_all required_keys [] rest w1) as [[new2|e] w2]; [| done].
    by rewrite app_assoc.
Qed.

Lemma strip_error_no_False (d : dict) :
  strip_error d !! "error" ≠ Some (PBool false).
Proof.
  unfold strip_error.
  destruct (d !! "error") as [[| [] | | | | |]|] eqn:E;
    rewrite ?E, ?lookup_delete_eq; done.
Qed.

(** What the loop appends: complete stripped dictionaries of the page, in the
    order of the page. *)
Lemma process_all_sublist (required_keys : list string)
    (extracted_data : list pyval) (acc : list dict) w acc' w' :
  process_all required_keys acc extracted_data w = (Returned acc', w') →
  ∃ new,
    acc' = acc ++ new ∧
    new `sublist_of`
      filter (λ d, is_complete_site d required_keys = true)
        (stripped_dicts extracted_data).
Proof.
  revert acc w. induction extracted_data as [|info rest IH]; intros acc w.
  - intros [= <- <-]. exists []. by rewrite app_nil_r.
  - cbn [process_all]. unfold mbind, M_bind.
    destruct info as [| | | | | |d];
      try (rewrite process_info_not_dict by done; done).
    rewrite process_info_dict. cbn zeta.
    change (stripped_dicts (PDict d :: rest))
      with (strip_error d :: stripped_dicts rest).
    destruct (is_complete_site (strip_error d) required_keys) eqn:Hc.
    + rewrite filter_cons_True by done.
      destruct (strip_error d !! "name") as [name|]; [| done].
      destruct (py_hash name) as [k|]; [| done].
      case_bool_decide; intros Hrest; apply IH in Hrest as (new & -> & Hsub).
      * exists new. split; [done |]. by apply sublist_cons.
      * exists (strip_error d :: new). rewrite <- app_assoc. split; [done |].
        by apply sublist_skip.
    + rewrite filter_cons_False by (by rewrite Hc).
      intros Hrest. by apply IH in Hrest.
Qed.

(** X5. When the loop ends normally, the records it has appended are complete
    dictionaries of the page with the benign error flag dropped, in the order
    in which the page lists them: nothing is reordered, altered otherwise or
    made up. *)
Theorem accepted_in_page_order (required_keys : list string)
    (extracted_data : list pyval) (acc : list dict) w :
  match process_all required_keys acc extracted_data w with
  | (Returned acc', _) =>
      ∃ new,
        acc' = acc ++ new ∧
        new `sublist_of`
          filter (λ d, is_complete_site d required_keys = true)
            (stripped_dicts extracted_data)
  | (Raised _, _) => True
  end.
Proof.
  destruct (process_all _ _ _ _) as [[acc'|e] w'] eqn:E; [| done].
  by eapply process_all_sublist.
Qed.

(** Once the loop has gone through a page, every candidate of the page is
    incomplete or has its name in [seen_names]. *)
Lemma process_all_again (required_keys : list string)
    (extracted_data : list pyval) (acc : list dict) w acc' w'
    (acc2 : list dict) w2 :
  process_all required_keys acc extracted_data w = (Returned acc', w') →
  seen_names w' ⊆ seen_names w2 →
  (process_all required_keys acc2 extracted_data w2).1 = Returned acc2 ∧
  seen_names (process_all required_keys acc2 extracted_data w2).2
  = seen_names w2.
Proof.
  revert acc w acc2 w2.
  induction extracted_data as [|info rest IH]; intros acc w acc2 w2; [done |].
  cbn [process_all]. unfold mbind, M_bind.
  destruct (process_info required_keys acc info w) as [[acc1|e] w1] eqn:E1;
    [| done].
  intros Hrest Hsub.
  pose proof (process_all_step _ _ _ _ _ _ Hrest)
    as (_ & _ & _ & ks & _ & _ & Hseen & _).
  assert (seen_names w1 ⊆ seen_names w2) as Hsub1 by set_solver.
  destruct info as [| | | | | |d];
    try (rewrite process_info_not_dict in E1 by done; done).
  rewrite process_info_dict in E1. rewrite process_info_dict. cbn zeta in *.
  destruct (is_complete_site _ _).
  - destruct (strip_error d !! "name") as [name|]; [| done].
    destruct (py_hash name) as [k|]; [| done].
    assert (k ∈ seen_names w2) as Hk.
    { apply Hsub1. clear -E1. case_bool_decide; simplify_eq; cbn; set_solver. }
    rewrite bool_decide_eq_true_2 by done.
    set (w3 := with_stdout _ (with_stdout _ w2)).
    destruct (IH acc1 w1 acc2 w3 Hrest) as [Ho Hs]; [done |].
    by rewrite Ho, Hs.
  - injection E1 as <- <-.
    set (w3 := with_stdout _ w2).
    destruct (IH _ _ acc2 w3 Hrest) as [Ho Hs]; [done |].
    by rewrite Ho, Hs.
Qed.

(** X6. Going through the same candidates again, in any state whose
    [seen_names] holds what the first pass left, appends nothing and adds no
    name: a page fetched twice yields its records once. *)
Theorem reprocessing_accepts_nothing (required_keys : list string)
    (extracted_data : list pyval) w (records : list dict) w' w2 :
  process_all required_keys [] extracted_data w = (Returned records, w') →
  seen_names w' ⊆ seen_names w2 →
  (process_all required_keys [] extracted_data w2).1 = Returned [] ∧
  seen_names (process_all required_keys [] extracted_data w2).2
  = seen_names w2.
Proof. apply process_all_again. Qed.

(** X7. Page boundaries do not matter to the filter: going through two lists
    of candidates one after the other, each from an empty accepted list, gives
    the same records (concatenated), the same exception and the same final
    state as going through their concatenation. *)
Theorem concatenated_pages (required_keys : list string)
    (first second : list pyval) w :
  process_all required_keys [] (first ++ second) w =
  match process_all required_keys [] first w with
  | (Returned records1, w1) =>
      match process_all required_keys [] second w1 with
      | (Returned records2, w2) => (Returned (records1 ++ records2), w2)
      | (Raised e, w2) => (Raised e, w2)
      end
  | (Raised e, w1) => (Raised e, w1)
  end.
Proof.
  rewrite process_all_app.
  destruct (process_all required_keys [] first w) as [[records1|e] w1]; [| done].
  apply process_all_acc.
Qed.

(** X8. A candidate that is not a dictionary (a number, a string, a nested
    list, [null]) makes the loop raise [AttributeError] when its turn comes:
    the records accepted before it are lost with the exception, while their
    names stay in [seen_names]. *)
Theorem non_dict_candidate_raises (required_keys : list string)
    (first rest : list pyval) (info : pyval) (acc : list dict) w :
  (∀ d, info ≠ PDict d) →
  process_all required_keys acc (first ++ info :: rest) w =
  match process_all required_keys acc first w with
  | (Returned _, w1) =>
      (Raised (AttributeError "get"),
       with_stdout (stdout w1 ++ [LogProcessing info]) w1)
  | (Raised e, w1) => (Raised e, w1)
  end.
Proof.
  intros Hnd. rewrite process_all_app.
  destruct (process_all required_keys acc first w) as [[acc1|e] w1]; [| done].
  cbn [process_all]. unfold mbind, M_bind.
  by rewrite process_info_not_dict.
Qed.

End Candidates.

(** ** [check_no_results] and the requests of a page *)

Section Requests.
Context {Crawler Strategy : Type}.
Variable arun :
  Crawler → string → CrawlerRunConfig Strategy → CrawlResult * Crawler.
Variable json_loads : string → option pyval.
Implicit Type w : world Crawler Strategy.

(** [fetch_and_process_page], stage by stage. *)
Lemma fetch_and_process_page_eq (page_number : Z)
    (base_url css_selector : string) (llm_strategy : Strategy)
    (session_id : string) (required_keys : list string) w :
  fetch_and_process_page arun json_loads page_number base_url css_selector
    llm_strategy session_id required_keys w =
  let url := page_url base_url page_number in
  let w0 := with_stdout (stdout w ++ [LogLoading page_number]) w in
  match check_no_results arun url session_id w0 with
  | (Raised e, w1) => (Raised e, w1)
  | (Returned true, w1) => (Returned ([], true), w1)
  | (Returned false, w1) =>
      let config := extraction_config llm_strategy css_selector session_id in
      let result := (arun (crawler w1) url config).1 in
      let w2 := with_fetch (arun (crawler w1) url config).2 (url, config) w1 in
      if negb (success result && truthy_opt (extracted_content result)) then
        (Returned ([], false),
         with_stdout
           (stdout w2 ++ [LogFetchError page_number (error_message result)]) w2)
      else
        match json_loads (default EmptyString (extracted_content result)) with
        | None => (Raised JSONDecodeError, w2)
        | Some extracted_data =>
            if negb (truthy extracted_data) then
              (Returned ([], false),
               with_stdout (stdout w2 ++ [LogNoVenues page_number]) w2)
            else
              let w3 :=
                with_stdout (stdout w2 ++ [LogExtractedData extracted_data]) w2
              in
              match py_iter extracted_data with
              | Raised e => (Raised e, w3)
              | Returned items =>
                  match process_all required_keys [] items w3 with
                  | (Raised e, w4) => (Raised e, w4)
                  | (Returned [], w4) =>
                      (Returned ([], false),
                       with_stdout (stdout w4 ++ [LogNoComplete page_number]) w4)
                  | (Returned (record :: records), w4) =>
                      (Returned (record :: records, false),
                       with_stdout
                         (stdout w4 ++
                          [LogExtracted (length (record :: records))
                             page_number]) w4)
                  end
              end
        end
  end.
Proof.
  unfold fetch_and_process_page, mbind, M_bind, print. cbn zeta.
  destruct (check_no_results _ _ _ _) as [[[]|e] w1]; try done.
  unfold crawler_arun. destruct (arun _ _ _) as [result crawler2]. cbn [fst snd].
  destruct (negb _); [done |].
  destruct (json_loads _) as [extracted_data|]; [| done].
  destruct (negb _); [done |].
  unfold lift. destruct (py_iter extracted_data) as [items|e]; [| done].
  by destruct (process_all _ _ _ _) as [[[|record records]|e] w4].
Qed.

(** X1. [check_no_results] answers [True] exactly when the probe succeeded and
    its cleaned text contains the phrase [No Results Found]; whatever the
    answer, it makes one request (the probe, with the cache bypassed and no
    extraction strategy) and leaves [seen_names] and the files alone. *)
Theorem check_no_results_true_iff_marker (url session_id : string) w :
  let probe := (arun (crawler w) url (probe_config session_id)).1 in
  let '(o, w') := check_no_results arun url session_id w in
  (o = Returned true ↔
   success probe = true ∧
   ∃ before after,
     cleaned_html probe = Some (before +:+ "No Results Found" +:+ after)) ∧
  fetches w' = fetches w ++ [(url, probe_config session_id)] ∧
  crawler w' = (arun (crawler w) url (probe_config session_id)).2 ∧
  seen_names w' = seen_names w ∧
  files w' = files w.
Proof.
  cbn zeta. rewrite check_no_results_eq.
  destruct (arun _ _ _) as [probe crawler']. cbn [fst snd].
  destruct (success probe).
  - destruct (cleaned_html probe) as [html|].
    + destruct (str_contains "No Results Found" html) eqn:Hc.
      * split; [| done]. split; [| done]. intros _. split; [done |].
        apply str_contains_spec in Hc as (before & after & ->). eauto.
      * split; [| done]. split; [done |]. intros (_ & before & after & [= ->]).
        assert (str_contains "No Results Found"
                  (before +:+ "No Results Found" +:+ after) = true)
          by (apply str_contains_spec; eauto).
        congruence.
    + split; [| done]. split; [done |]. by intros (_ & ? & ? & ?).
  - split; [| done]. split; [done |]. by intros [? _].
Qed.

Lemma check_no_results_frame (url session_id : string) w :
  fetches (check_no_results arun url session_id w).2
  = fetches w ++ [(url, probe_config session_id)] ∧
  seen_names (check_no_results arun url session_id w).2 = seen_names w ∧
  files (check_no_results arun url session_id w).2 = files w ∧
  ∃ lines, stdout (check_no_results arun url session_id w).2 = stdout w ++ lines.
Proof.
  rewrite check_no_results_eq.
  destruct (arun _ _ _) as [probe crawler'].
  destruct (success probe); [| by repeat split; exists []; rewrite app_nil_r].
  destruct (cleaned_html probe) as [html|];
    [| by repeat split; exists []; rewrite app_nil_r].
  destruct (str_contains _ html);
    [by repeat split; exists []; rewrite app_nil_r |].
  repeat split; by eexists.
Qed.

(** X2. Every call asks for the probe first and, at most once more, for the
    extraction, both at the URL of the page; a call that returns the terminal
    flag has made the probe alone and returns no record, a call that returns
    without the flag has made both requests. *)
Theorem requests_of_a_call (page_number : Z)
    (base_url css_selector : string) (llm_strategy : Strategy)
    (session_id : string) (required_keys : list string) w :
  let url := page_url base_url page_number in
  let probe := (url, probe_config session_id) in
  let extraction :=
    (url, extraction_config llm_strategy css_selector session_id) in
  let '(o, w') :=
    fetch_and_process_page arun json_loads page_number base_url css_selector
      llm_strategy session_id required_keys w in
  (fetches w' = fetches w ++ [probe] ∨
   fetches w' = fetches w ++ [probe; extraction]) ∧
  match o with
  | Returned (records, true) =>
      records = [] ∧ fetches w' = fetches w ++ [probe]
  | Returned (_, false) => fetches w' = fetches w ++ [probe; extraction]
  | Raised _ => True
  end.
Proof.
  cbn zeta. rewrite fetch_and_process_page_eq. cbn zeta.
  destruct (check_no_results_frame (page_url base_url page_number) session_id
              (with_stdout (stdout w ++ [LogLoading page_number]) w))
    as (Hf1 & _ & _ & _).
  cbn [fetches with_stdout] in Hf1.
  destruct (check_no_results _ _ _ _) as [[[]|e] w1]; cbn [snd] in Hf1;
    [by auto | | by auto].
  set (extraction :=
         (page_url base_url page_number,
          extraction_config llm_strategy css_selector session_id)).
  set (w2 := with_fetch _ extraction w1).
  assert (fetches w2
          = fetches w ++ [(page_url base_url page_number,
                           probe_config session_id); extraction]) as Hf2.
  { subst w2. cbn. by rewrite Hf1, <- app_assoc. }
  clearbody w2.
  destruct (negb _); [by auto |].
  destruct (json_loads _) as [extracted_data|]; [| by auto].
  destruct (negb _); [by auto |].
  destruct (py_iter extracted_data) as [items|e]; [| by auto].
  destruct (process_all _ _ _ _) as [[[|record records]|e] w4] eqn:Hloop;
    apply process_all_step in Hloop as (_ & Hf4 & _);
    cbn [fetches with_stdout] in *; rewrite <- Hf4 in Hf2; by auto.
Qed.

(** X3. A call writes no file.  On standard output it keeps what was there
    and adds lines after it, the page notice first; when it returns records,
    the last line reports their number. *)
Theorem page_output (page_number : Z)
    (base_url css_selector : string) (llm_strategy : Strategy)
    (session_id : string) (required_keys : list string) w :
  let '(o, w') :=
    fetch_and_process_page arun json_loads page_number base_url css_selector
      llm_strategy session_id required_keys w in
  files w' = files w ∧
  (∃ lines, stdout w' = stdout w ++ LogLoading page_number :: lines) ∧
  match o with
  | Returned (record :: records, _) =>
      last (stdout w') = Some (LogExtracted (S (length records)) page_number)
  | _ => True
  end.
Proof.
  destruct (fetch_and_process_page _ _ _ _ _ _ _ _ _) as [o w'] eqn:E.
  split; [by apply fetch_and_process_page_step in E as [? _] |].
  rewrite fetch_and_process_page_eq in E. cbn zeta in E.
  destruct (check_no_results_frame (page_url base_url page_number) session_id
              (with_stdout (stdout w ++ [LogLoading page_number]) w))
    as (_ & _ & _ & l1 & Hs1).
  cbn [stdout with_stdout] in Hs1. rewrite <- app_assoc in Hs1. cbn in Hs1.
  destruct (check_no_results _ _ _ _) as [[[]|e] w1]; cbn [snd] in Hs1;
    [injection E as <- <-; eauto | | injection E as <- <-; eauto].
  set (w2 := with_fetch _ _ w1) in E.
  assert (stdout w2 = stdout w ++ LogLoading page_number :: l1) as Hs2 by done.
  clearbody w2.
  destruct (negb _).
  { injection E as <- <-. cbn. rewrite Hs2, <- app_assoc. eauto. }
  destruct (json_loads _) as [extracted_data|];
    [| injection E as <- <-; eauto].
  destruct (negb _).
  { injection E as <- <-. cbn. rewrite Hs2, <- app_assoc. eauto. }
  destruct (py_iter extracted_data) as [items|e].
  2: { injection E as <- <-. cbn. rewrite Hs2, <- app_assoc. eauto. }
  set (w3 := with_stdout _ w2) in E.
  destruct (process_all_stdout required_keys items [] w3) as [l3 Hs3].
  assert (stdout w3
          = stdout w ++ LogLoading page_number
              :: (l1 ++ [LogExtractedData extracted_data])) as Hs3'.
  { subst w3. cbn. by rewrite Hs2, <- app_assoc. }
  rewrite Hs3' in Hs3. clearbody w3.
  destruct (process_all _ _ _ _) as [[[|record records]|e] w4];
    cbn [snd] in Hs3; injection E as <- <-; cbn [stdout with_stdout].
  - rewrite Hs3, <- !app_assoc. cbn. eauto.
  - split; [| apply last_snoc]. rewrite Hs3, <- !app_assoc. cbn. eauto.
  - rewrite Hs3, <- !app_assoc. cbn. eauto.
Qed.

(** X4. Every record a call returns has all the required keys, and none
    carries an error flag equal to [False]. *)
Theorem returned_records_are_complete (page_number : Z)
    (base_url css_selector : string) (llm_strategy : Strategy)
    (session_id : string) (required_keys : list string) w :
  match
    (fetch_and_process_page arun json_loads page_number base_url css_selector
       llm_strategy session_id required_keys w).1
  with
  | Returned (records, _) =>
      Forall (λ record, is_complete_site record required_keys = true ∧
                        record !! "error" ≠ Some (PBool false)) records
  | Raised _ => True
  end.
Proof.
  rewrite fetch_and_process_page_eq. cbn zeta.
  destruct (check_no_results _ _ _ _) as [[[]|e] w1]; [by cbn | | done].
  destruct (negb _); [by cbn |].
  destruct (json_loads _) as [extracted_data|]; [| done].
  destruct (negb _); [by cbn |].
  destruct (py_iter extracted_data) as [items|e]; [| done].
  destruct (process_all _ _ _ _) as [[records|e] w4] eqn:Hloop; [| done].
  apply process_all_sublist in Hloop as (new & -> & Hsub). cbn [app] in *.
  assert (Forall (λ record, is_complete_site record required_keys = true ∧
                            record !! "error" ≠ Some (PBool false)) new) as Hall.
  { apply Forall_forall. intros record Hin.
    apply sublist_submseteq in Hsub.
    eapply elem_of_submseteq in Hin; [| done].
    apply list_elem_of_filter in Hin as [Hc Hin]. split; [done |].
    apply list_elem_of_omap in Hin as (info & _ & Hinfo).
    destruct info; try done. injection Hinfo as <-. apply strip_error_no_False. }
  by destruct new.
Qed.

(** ** The failures of a page *)

Lemma extraction_of_page_seen_names (page_number : Z)
    (base_url css_selector : string) (llm_strategy : Strategy)
    (session_id : string) w :
  seen_names
    (extraction_of_page arun page_number base_url css_selector llm_strategy
       session_id w).2 = seen_names w.
Proof.
  unfold extraction_of_page, probe_of_page. cbn.
  by destruct (check_no_results_frame (page_url base_url page_number)
                 session_id
                 (with_stdout (stdout w ++ [LogLoading page_number]) w))
    as (_ & -> & _).
Qed.

(** The call, once the probe has answered [False]. *)
Lemma fetch_and_process_page_after_probe (page_number : Z)
    (base_url css_selector : string) (llm_strategy : Strategy)
    (session_id : string) (required_keys : list string) w :
  (probe_of_page arun page_number base_url session_id w).1 = Returned false →
  fetch_and_process_page arun json_loads page_number base_url css_selector
    llm_strategy session_id required_keys w =
  let result :=
    (extraction_of_page arun page_number base_url css_selector llm_strategy
       session_id w).1 in
  let w2 :=
    (extraction_of_page arun page_number base_url css_selector llm_strategy
       session_id w).2 in
  if negb (success result && truthy_opt (extracted_content result)) then
    (Returned ([], false),
     with_stdout
       (stdout w2 ++ [LogFetchError page_number (error_message result)]) w2)
  else
    match json_loads (default EmptyString (extracted_content result)) with
    | None => (Raised JSONDecodeError, w2)
    | Some extracted_data =>
        if negb (truthy extracted_data) then
          (Returned ([], false),
           with_stdout (stdout w2 ++ [LogNoVenues page_number]) w2)
        else
          let w3 :=
            with_stdout (stdout w2 ++ [LogExtractedData extracted_data]) w2 in
          match py_iter extracted_data with
          | Raised e => (Raised e, w3)
          | Returned items =>
              match process_all required_keys [] items w3 with
              | (Raised e, w4) => (Raised e, w4)
              | (Returned [], w4) =>
                  (Returned ([], false),
                   with_stdout (stdout w4 ++ [LogNoComplete page_number]) w4)
              | (Returned (record :: records), w4) =>
                  (Returned (record :: records, false),
                   with_stdout
                     (stdout w4 ++
                      [LogExtracted (length (record :: records)) page_number])
                     w4)
              end
          end
    end.
Proof.
  intros Hprobe. rewrite fetch_and_process_page_eq.
  unfold extraction_of_page, probe_of_page in *. cbn zeta. cbn [fst snd].
  destruct (check_no_results _ _ _ _) as [o w1]. cbn [fst snd] in *.
  by subst o.
Qed.

(** X9. When the probe has not found the phrase and the extraction request
    fails or brings no content, the call prints the error and returns the
    empty list with the terminal flag unset; [json.loads] is not reached and
    [seen_names] is what it was. *)
Theorem extraction_failure_returns_empty (page_number : Z)
    (base_url css_selector : string) (llm_strategy : Strategy)
    (session_id : string) (required_keys : list string) w :
  let result :=
    (extraction_of_page arun page_number base_url css_selector llm_strategy
       session_id w).1 in
  let w2 :=
    (extraction_of_page arun page_number base_url css_selector llm_strategy
       session_id w).2 in
  (probe_of_page arun page_number base_url session_id w).1 = Returned false →
  success result && truthy_opt (extracted_content result) = false →
  fetch_and_process_page arun json_loads page_number base_url css_selector
    llm_strategy session_id required_keys w
  = (Returned ([], false),
     with_stdout
       (stdout w2 ++ [LogFetchError page_number (error_message result)]) w2) ∧
  seen_names w2 = seen_names w.
Proof.
  cbn zeta. intros Hprobe Hfail.
  split; [| apply extraction_of_page_seen_names].
  rewrite fetch_and_process_page_after_probe by done. cbn zeta.
  by rewrite Hfail.
Qed.

(** X10. When the extraction has brought a text that [json.loads] rejects,
    the call raises [JSONDecodeError]: nothing catches it; [seen_names] is what
    it was. *)
Theorem malformed_payload_raises (page_number : Z)
    (base_url css_selector : string) (llm_strategy : Strategy)
    (session_id : string) (required_keys : list string) w :
  let result :=
    (extraction_of_page arun page_number base_url css_selector llm_strategy
       session_id w).1 in
  let w2 :=
    (extraction_of_page arun page_number base_url css_selector llm_strategy
       session_id w).2 in
  (probe_of_page arun page_number base_url session_id w).1 = Returned false →
  success result && truthy_opt (extracted_content result) = true →
  json_loads (default EmptyString (extracted_content result)) = None →
  fetch_and_process_page arun json_loads page_number base_url css_selector
    llm_strategy session_id required_keys w
  = (Raised JSONDecodeError, w2) ∧
  seen_names w2 = seen_names w.
Proof.
  cbn zeta. intros Hprobe Hok Hbad.
  split; [| apply extraction_of_page_seen_names].
  rewrite fetch_and_process_page_after_probe by done. cbn zeta.
  by rewrite Hok, Hbad.
Qed.

(** X11. When the decoded payload is falsy (an empty list, an empty object,
    [null], [0], [false], an empty string), the call prints that the page has
    no venue and returns the empty list with the terminal flag unset. *)
Theorem falsy_payload_returns_empty (page_number : Z)
    (base_url css_selector : string) (llm_strategy : Strategy)
    (session_id : string) (required_keys : list string) w
    (extracted_data : pyval) :
  let result :=
    (extraction_of_page arun page_number base_url css_selector llm_strategy
       session_id w).1 in
  let w2 :=
    (extraction_of_page arun page_number base_url css_selector llm_strategy
       session_id w).2 in
  (probe_of_page arun page_number base_url session_id w).1 = Returned false →
  success result && truthy_opt (extracted_content result) = true →
  json_loads (default EmptyString (extracted_content result))
  = Some extracted_data →
  truthy extracted_data = false →
  fetch_and_process_page arun json_loads page_number base_url css_selector
    llm_strategy session_id required_keys w
  = (Returned ([], false),
     with_stdout (stdout w2 ++ [LogNoVenues page_number]) w2) ∧
  seen_names w2 = seen_names w.
Proof.
  cbn zeta. intros Hprobe Hok Hdata Hfalsy.
  split; [| apply extraction_of_page_seen_names].
  rewrite fetch_and_process_page_after_probe by done. cbn zeta.
  by rewrite Hok, Hdata, Hfalsy.
Qed.

(** X12. When the decoded payload is truthy and not a list, the call raises
    and [seen_names] is what it was: an object or a string is iterated (over
    its keys, its characters), and the first item, a string, has no [get]:
    [AttributeError]; a number or [true] cannot be iterated: [TypeError]. *)
Theorem payload_not_a_list_raises (page_number : Z)
    (base_url css_selector : string) (llm_strategy : Strategy)
    (session_id : string) (required_keys : list string) w
    (extracted_data : pyval) :
  let result :=
    (extraction_of_page arun page_number base_url css_selector llm_strategy
       session_id w).1 in
  let w' :=
    (fetch_and_process_page arun json_loads page_number base_url css_selector
       llm_strategy session_id required_keys w).2 in
  (probe_of_page arun page_number base_url session_id w).1 = Returned false →
  success result && truthy_opt (extracted_content result) = true →
  json_loads (default EmptyString (extracted_content result))
  = Some extracted_data →
  truthy extracted_data = true →
  (∀ l, extracted_data ≠ PList l) →
  (fetch_and_process_page arun json_loads page_number base_url css_selector
     llm_strategy session_id required_keys w).1
  = Raised (match extracted_data with
            | PDict _ | PStr _ => AttributeError "get"
            | _ => TypeError_not_iterable
            end) ∧
  seen_names w' = seen_names w.
Proof.
  cbn zeta. intros Hprobe Hok Hdata Htruthy Hnl.
  rewrite fetch_and_process_page_after_probe by done. cbn zeta.
  rewrite Hok, Hdata, Htruthy. cbn [negb].
  pose proof (extraction_of_page_seen_names page_number base_url css_selector
                llm_strategy session_id w) as Hseen.
  destruct extracted_data as [| | | |s|l|d]; cbn [py_iter]; try done.
  - destruct s as [|a s]; [done |]. cbn [str_chars fmap list_fmap].
    cbn [process_all]. unfold mbind, M_bind.
    by rewrite process_info_not_dict.
  - by destruct (Hnl l).
  - cbn [truthy] in Htruthy. apply negb_true_iff, bool_decide_eq_false in Htruthy.
    destruct (map_to_list d) as [|[key v] kvs] eqn:Hd.
    { apply map_to_list_empty_iff in Hd. subst d. by rewrite map_size_empty in Htruthy. }
    cbn [fmap list_fmap fst]. cbn [process_all]. unfold mbind, M_bind.
    by rewrite process_info_not_dict.
Qed.

(** X13. When the probe reports success and carries no cleaned text, the
    membership test raises [TypeError]: the call ends there, with the probe as
    its only request. *)
Theorem textless_probe_raises (page_number : Z)
    (base_url css_selector : string) (llm_strategy : Strategy)
    (session_id : string) (required_keys : list string) w :
  let url := page_url base_url page_number in
  let probe := (arun (crawler w) url (probe_config session_id)).1 in
  let w' :=
    (fetch_and_process_page arun json_loads page_number base_url css_selector
       llm_strategy session_id required_keys w).2 in
  success probe = true →
  cleaned_html probe = None →
  (fetch_and_process_page arun json_loads page_number base_url css_selector
     llm_strategy session_id required_keys w).1
  = Raised TypeError_not_iterable ∧
  fetches w' = fetches w ++ [(url, probe_config session_id)] ∧
  seen_names w' = seen_names w.
Proof.
  cbn zeta. intros Hsuccess Hnone.
  rewrite fetch_and_process_page_eq. cbn zeta.
  rewrite check_no_results_eq. cbn [crawler with_stdout].
  destruct (arun _ _ _) as [probe crawler']. cbn [fst] in *.
  by rewrite Hsuccess, Hnone.
Qed.

End Requests.

(** ** More on the filters and on [save_keys_to_csv] *)

(** X16. Completeness is kept when the record gains keys or keeps its keys
    with other values, and when fewer keys are required. *)
Theorem is_complete_site_monotone (site site' : dict)
    (required_keys required_keys' : list string) :
  dom site ⊆ dom site' →
  required_keys' ⊆ required_keys →
  is_complete_site site required_keys = true →
  is_complete_site site' required_keys' = true.
Proof.
  intros Hdom Hreq Hc. apply is_complete_site_Forall.
  apply is_complete_site_Forall in Hc. rewrite Forall_forall in *.
  intros key Hkey. apply elem_of_dom, Hdom, elem_of_dom, Hc, Hreq, Hkey.
Qed.

(** A missing field and a field holding the empty string give the same cell. *)
Example row_values_missing_field :
  row_values (delete "description" (venue (PStr "Hall")))
  = row_values (<["description" := PStr EmptyString]> (venue (PStr "Hall"))).
Proof. vm_compute. reflexivity. Qed.

Section SaveEffects.
Context {Crawler Strategy : Type}.
Implicit Type w : world Crawler Strategy.

(** [writerows] extends the file by the rows of a prefix of the list: the
    whole list when it returns, a proper prefix when it raises. *)
Lemma writerows_prefix filename (rowdicts : list dict) cur w :
  files w !! filename = Some cur →
  ∃ n,
    (writerows (Crawler := Crawler) (Strategy := Strategy)
       filename rowdicts w).2
    = with_files
        (<[filename := cur ++ take n (row_values <$> rowdicts)]> (files w)) w ∧
    match (writerows (Crawler := Crawler) (Strategy := Strategy)
             filename rowdicts w).1 with
    | Returned _ => n = length rowdicts
    | Raised _ => n < length rowdicts
    end.
Proof.
  revert cur w. induction rowdicts as [|r rest IH]; intros cur w Hcur.
  - exists 0. cbn. by rewrite app_nil_r, insert_id, with_files_same.
  - cbn [writerows]. unfold mbind, M_bind, lift, file_write_row.
    unfold dict_to_list. case_bool_decide.
    + rewrite Hcur. cbn [default].
      set (w1 := with_files _ w).
      destruct (IH (cur ++ [row_values r]) w1) as (n & Hw & Hn);
        [apply lookup_insert_eq |].
      exists (S n). split.
      * rewrite Hw. subst w1. unfold with_files; cbn.
        by rewrite insert_insert_eq, <- app_assoc.
      * destruct (writerows _ _ _).1; cbn; lia.
    + exists 0. cbn. rewrite app_nil_r, insert_id, with_files_same by done.
      split; [done | lia].
Qed.

Variable openable : string → bool.

(** X14. [save_keys_to_csv] changes the file at the path and standard output,
    and nothing else: no other file, not the crawler, not [seen_names].  For a
    non-empty list, at a path that cannot be opened the exception of [open]
    comes out and nothing at all has changed; at a path that can be opened the
    file becomes the header followed by the rows of a prefix of the list,
    whatever it held before: the whole list exactly when the call returns,
    fewer when it raises. *)
Theorem save_keys_to_csv_effects (valid_infos : list dict) filename w :
  let '(o, w') := save_keys_to_csv openable valid_infos filename w in
  crawler w' = crawler w ∧ seen_names w' = seen_names w ∧
  fetches w' = fetches w ∧
  (∀ other, other ≠ filename → files w' !! other = files w !! other) ∧
  match valid_infos with
  | [] => files w' = files w
  | _ :: _ =>
      match open_error openable filename with
      | Some e => o = Raised e ∧ w' = w
      | None =>
          ∃ n,
            files w' !! filename
            = Some (header_row :: take n (row_values <$> valid_infos)) ∧
            match o with
            | Returned _ => n = length valid_infos
            | Raised _ => n < length valid_infos
            end
      end
  end.
Proof.
  destruct valid_infos as [|r rest] eqn:E; [done |].
  rewrite <- E. rewrite save_keys_to_csv_nonempty by (by subst).
  destruct (open_error openable filename); [done |].
  set (w1 := with_files _ w).
  destruct (writerows_prefix filename valid_infos [header_row] w1)
    as (n & Hw & Hn); [apply lookup_insert_eq |].
  destruct (writerows filename valid_infos w1) as [[[]|e] w2];
    cbn [fst snd] in *; subst w2 w1; cbn; rewrite insert_insert_eq.
  - do 3 (split; [done |]).
    split; [by intros other Hne; rewrite lookup_insert_ne |].
    exists n. by rewrite lookup_insert_eq.
  - do 3 (split; [done |]).
    split; [by intros other Hne; rewrite lookup_insert_ne |].
    exists n. by rewrite lookup_insert_eq.
Qed.

End SaveEffects.

(** ** Instances of the further properties *)

Lemma reprocessing_accepts_nothing_witness :
  let page := [PDict (venue (PStr "Hall")); PDict (venue (PStr "Barn"))] in
  let w' := (process_all fieldnames [] page (start [])).2 in
  (process_all fieldnames [] page (start [])).1
  = Returned [venue (PStr "Hall"); venue (PStr "Barn")] ∧
  (process_all fieldnames [] page w').1 = Returned [] ∧
  seen_names (process_all fieldnames [] page w').2 = seen_names w'.
Proof.
  cbn zeta. split; [vm_compute; reflexivity |].
  apply (reprocessing_accepts_nothing fieldnames
           [PDict (venue (PStr "Hall")); PDict (venue (PStr "Barn"))]
           (start []) [venue (PStr "Hall"); venue (PStr "Barn")]
           (process_all fieldnames []
              [PDict (venue (PStr "Hall")); PDict (venue (PStr "Barn"))]
              (start [])).2).
  - vm_compute. reflexivity.
  - done.
Defined.

Lemma non_dict_candidate_raises_witness :
  (process_all fieldnames [] [PDict (venue (PStr "Hall")); PInt 5]
     (start [])).1
  = Raised (AttributeError "get") ∧
  seen_names
    (process_all fieldnames [] [PDict (venue (PStr "Hall")); PInt 5]
       (start [])).2
  = {[ HStr "Hall" ]}.
Proof.
  pose proof (non_dict_candidate_raises fieldnames
                [PDict (venue (PStr "Hall"))] [] (PInt 5) [] (start [])) as H.
  cbn [app] in H. rewrite H by done.
  split; vm_compute; reflexivity.
Defined.

Lemma extraction_failure_returns_empty_witness :
  (fetch_and_process_page site_arun json_decode 1 listing_url ".venue" ()
     "venue_crawl_session" fieldnames (start empty_payload_page)).1
  = Returned ([], false).
Proof.
  destruct (extraction_failure_returns_empty site_arun json_decode 1
              listing_url ".venue" () "venue_crawl_session" fieldnames
              (start empty_payload_page)) as [Hcall _].
  - vm_compute. reflexivity.
  - vm_compute. reflexivity.
  - by rewrite Hcall.
Defined.

Lemma malformed_payload_raises_witness :
  (fetch_and_process_page site_arun json_decode 1 listing_url ".venue" ()
     "venue_crawl_session" fieldnames (start malformed_page)).1
  = Raised JSONDecodeError.
Proof.
  destruct (malformed_payload_raises site_arun json_decode 1
              listing_url ".venue" () "venue_crawl_session" fieldnames
              (start malformed_page)) as [Hcall _].
  - vm_compute. reflexivity.
  - vm_compute. reflexivity.
  - vm_compute. reflexivity.
  - by rewrite Hcall.
Defined.

Lemma falsy_payload_returns_empty_witness :
  (fetch_and_process_page site_arun json_decode 1 listing_url ".venue" ()
     "venue_crawl_session" fieldnames (start empty_list_page)).1
  = Returned ([], false).
Proof.
  destruct (falsy_payload_returns_empty site_arun json_decode 1
              listing_url ".venue" () "venue_crawl_session" fieldnames
              (start empty_list_page) (PList [])) as [Hcall _].
  - vm_compute. reflexivity.
  - vm_compute. reflexivity.
  - vm_compute. reflexivity.
  - reflexivity.
  - by rewrite Hcall.
Defined.

Lemma payload_not_a_list_raises_witness :
  (fetch_and_process_page site_arun json_decode 1 listing_url ".venue" ()
     "venue_crawl_session" fieldnames (start single_object_page)).1
  = Raised (AttributeError "get") ∧
  seen_names
    (fetch_and_process_page site_arun json_decode 1 listing_url ".venue" ()
       "venue_crawl_session" fieldnames (start single_object_page)).2
  = ∅.
Proof.
  apply (payload_not_a_list_raises site_arun json_decode 1
           listing_url ".venue" () "venue_crawl_session" fieldnames
           (start single_object_page) (PDict (venue (PStr "Hall")))).
  - vm_compute. reflexivity.
  - vm_compute. reflexivity.
  - vm_compute. reflexivity.
  - vm_compute. reflexivity.
  - done.
Defined.

Lemma textless_probe_raises_witness :
  let w :=
    {| crawler := (); seen_names := ∅; stdout := []; fetches := [];
       files := ∅ |} in
  (fetch_and_process_page textless_arun json_decode 1 listing_url ".venue" ()
     "venue_crawl_session" fieldnames w).1
  = Raised TypeError_not_iterable ∧
  fetches
    (fetch_and_process_page textless_arun json_decode 1 listing_url ".venue"
       () "venue_crawl_session" fieldnames w).2
  = [(page_url listing_url 1, probe_config "venue_crawl_session")] ∧
  seen_names
    (fetch_and_process_page textless_arun json_decode 1 listing_url ".venue"
       () "venue_crawl_session" fieldnames w).2
  = ∅.
Proof.
  cbn zeta.
  apply (textless_probe_raises textless_arun json_decode 1 listing_url
           ".venue" () "venue_crawl_session" fieldnames
           {| crawler := (); seen_names := ∅; stdout := []; fetches := [];
              files := ∅ |}); reflexivity.
Defined.

Lemma is_complete_site_monotone_witness :
  is_complete_site (<["error" := PBool true]> (venue (PStr "Hall")))
    ["name"; "location"] = true.
Proof.
  apply (is_complete_site_monotone (venue (PStr "Hall")) _ fieldnames).
  - by_evaluation.
  - intros key Hkey. repeat (apply elem_of_cons in Hkey as [-> | Hkey]);
      [by_evaluation | by_evaluation | by apply elem_of_nil in Hkey].
  - vm_compute. reflexivity.
Defined.
